(** * Credential resolution of [computer_use_demo/token_manager.py]

    A shallow embedding of the [TokenManager] class: the keychain accessor,
    the structured extraction from the MCP credentials document, the
    three-store resolution, the environment override and the materialised
    environment mapping.

    Conventions of the model.
    - A Python [str] is the Rocq [string] of its UTF-8 encoding.
    - A Python value that may be any decoded JSON value (or [None]) is a
      [pyval]; Python's [None] and JSON's [null] are the same value, as in
      Python.
    - A method is a computation in the monad [M]: it reads and extends the
      list of [security] commands handed to [subprocess.run] so far, and it
      either returns a value or raises an exception.
    - [subprocess.run], [os.environ] and [json.loads] are not code of the
      module: inside [Module TokenManager] they are section variables.
      [Module json] gives a decoder of its own for the concrete scenarios.
    - Diagnostic printing ([_log]) is not part of the modelled state; the
      expressions evaluated to build a message are. *)

From Stdlib Require Import ZArith String Ascii List Bool Lia.
From stdpp Require Import base option list strings gmap.

Set Warnings "-register-all".
Local Open Scope string_scope.
Local Open Scope list_scope.
Local Open Scope Z_scope.

(** ** Python values *)

(** An IEEE binary64 value: not-a-number, an infinity, or
    [(-1)^neg * m * 2^e]. *)
Inductive pyfloat :=
| F_nan
| F_inf (neg : bool)
| F_fin (neg : bool) (m : N) (e : Z).

Inductive pyval :=
| PyNone
| PyBool (b : bool)
| PyInt (n : Z)
| PyFloat (f : pyfloat)
| PyStr (s : string)
| PyList (l : list pyval)
| PyDict (d : gmap string pyval).

Inductive exn :=
| AttributeError
| TypeError
| KeyError
| ValueError
| OSError
| RecursionError
| JSONDecodeError.

(** The outcome of evaluating a Python expression or call. *)
Inductive outcome (A : Type) :=
| Returns (a : A)
| Raises (e : exn).
Arguments Returns {A} a.
Arguments Raises {A} e.

(** [bool(f)] for a float: everything but the two zeros is true. *)
Definition float_truthy (f : pyfloat) : bool :=
  match f with
  | F_fin _ 0%N _ => false
  | _ => true
  end.

(** [bool(s)] for a string. *)
Definition str_truthy (s : string) : bool :=
  match s with
  | EmptyString => false
  | String _ _ => true
  end.

(** [bool(v)]: the test of [if v:]. *)
Definition py_truthy (v : pyval) : bool :=
  match v with
  | PyNone => false
  | PyBool b => b
  | PyInt n => negb (n =? 0)
  | PyFloat f => float_truthy f
  | PyStr s => str_truthy s
  | PyList l => match l with [] => false | _ :: _ => true end
  | PyDict d => negb (Nat.eqb (size d) 0)
  end.

(** [bool(o)] for an [Optional[str]]. *)
Definition opt_truthy (o : option string) : bool :=
  match o with
  | None => false
  | Some s => str_truthy s
  end.

(** An [Optional[str]] as a Python value. *)
Definition of_opt_str (o : option string) : pyval :=
  match o with
  | None => PyNone
  | Some s => PyStr s
  end.

(** [needle in hay] for two strings: [needle] occurs in [hay]. *)
Fixpoint str_contains (needle hay : string) : bool :=
  String.prefix needle hay ||
  match hay with
  | EmptyString => false
  | String _ hay' => str_contains needle hay'
  end.

(** [v == key] for a string [key]: only an equal string compares equal. *)
Definition eq_str (key : string) (v : pyval) : bool :=
  match v with
  | PyStr s => String.eqb s key
  | _ => false
  end.

(** [key in v] for a string [key]. *)
Definition py_contains (key : string) (v : pyval) : outcome bool :=
  match v with
  | PyDict d => Returns (match d !! key with Some _ => true | None => false end)
  | PyList l => Returns (existsb (eq_str key) l)
  | PyStr s => Returns (str_contains key s)
  | PyNone | PyBool _ | PyInt _ | PyFloat _ => Raises TypeError
  end.

(** [v[key]] for a string [key]. *)
Definition py_getitem (v : pyval) (key : string) : outcome pyval :=
  match v with
  | PyDict d =>
      match d !! key with
      | Some x => Returns x
      | None => Raises KeyError
      end
  | _ => Raises TypeError
  end.

(** [v.get(key, default)]: only a dict has the method. *)
Definition py_get (v : pyval) (key : string) (dflt : pyval) : outcome pyval :=
  match v with
  | PyDict d => Returns (default dflt (d !! key))
  | _ => Raises AttributeError
  end.

(** [len(v)]. *)
Definition py_len (v : pyval) : outcome nat :=
  match v with
  | PyDict d => Returns (size d)
  | PyList l => Returns (List.length l)
  | PyStr s => Returns (String.length s)
  | PyNone | PyBool _ | PyInt _ | PyFloat _ => Raises TypeError
  end.

(** [isinstance(v, dict)]. *)
Definition is_dict (v : pyval) : bool :=
  match v with
  | PyDict _ => true
  | _ => false
  end.

(** [d[key]] for a dict of the module (a class constant). *)
Definition dict_getitem {A : Type} (d : gmap string A) (key : string) : outcome A :=
  match d !! key with
  | Some x => Returns x
  | None => Raises KeyError
  end.

(** ** [str.strip()] *)

Definition bytes (l : list nat) : string :=
  string_of_list_ascii (map ascii_of_nat l).

(** The characters [str.strip()] removes, in UTF-8: U+0009..U+000D,
    U+001C..U+0020, U+0085, U+00A0, U+1680, U+2000..U+200A, U+2028, U+2029,
    U+202F, U+205F and U+3000. *)
Definition py_whitespace : list string :=
  map bytes
    [[9]; [10]; [11]; [12]; [13]; [28]; [29]; [30]; [31]; [32];
     [194; 133]; [194; 160]; [225; 154; 128];
     [226; 128; 128]; [226; 128; 129]; [226; 128; 130]; [226; 128; 131];
     [226; 128; 132]; [226; 128; 133]; [226; 128; 134]; [226; 128; 135];
     [226; 128; 136]; [226; 128; 137]; [226; 128; 138];
     [226; 128; 168]; [226; 128; 169]; [226; 128; 175]; [226; 129; 159];
     [227; 128; 128]]%nat.

Fixpoint strip_prefix (p s : string) : option string :=
  match p, s with
  | EmptyString, _ => Some s
  | String a p', String b s' => if Ascii.eqb a b then strip_prefix p' s' else None
  | String _ _, EmptyString => None
  end.

(** What is left of [s] after one leading character of [ws], if it has one. *)
Definition drop_one (ws : list string) (s : string) : option string :=
  head (omap (fun w => strip_prefix w s) ws).

Fixpoint lstrip_fuel (ws : list string) (fuel : nat) (s : string) : string :=
  match fuel with
  | O => s
  | S fuel' =>
      match drop_one ws s with
      | Some s' => lstrip_fuel ws fuel' s'
      | None => s
      end
  end.

Definition py_lstrip (s : string) : string :=
  lstrip_fuel py_whitespace (String.length s) s.

(** Trailing characters are removed on the reversed string. *)
Definition py_rstrip (s : string) : string :=
  String.rev
    (lstrip_fuel (map String.rev py_whitespace) (String.length s) (String.rev s)).

Definition py_strip (s : string) : string := py_rstrip (py_lstrip s).

(** [s.startswith(p)]. *)
Definition startswith (s p : string) : bool := String.prefix p s.

(** ** Effects: the commands run so far, and exceptions *)

(** The argument vectors handed to [subprocess.run], oldest first. *)
Definition trace := list (list string).

Definition M (A : Type) : Type := trace -> outcome A * trace.

#[global] Instance M_ret : MRet M := fun A a t => (Returns a, t).

#[global] Instance M_bind : MBind M := fun A B f m t =>
  match m t with
  | (Returns a, t') => f a t'
  | (Raises e, t') => (Raises e, t')
  end.

(** An expression evaluated without running anything. *)
Definition eval {A : Type} (o : outcome A) : M A := fun t => (o, t).

(** [try: body  except <classes>: handler]. *)
Definition try_except {A : Type}
    (body : M A) (catches : exn -> bool) (handler : exn -> M A) : M A :=
  fun t =>
    match body t with
    | (Returns a, t') => (Returns a, t')
    | (Raises e, t') => if catches e then handler e t' else (Raises e, t')
    end.

(** [except Exception]. *)
Definition any_Exception (e : exn) : bool := true.

(** [except json.JSONDecodeError]. *)
Definition is_JSONDecodeError (e : exn) : bool :=
  match e with
  | JSONDecodeError => true
  | _ => false
  end.

(** Sequencing of plain outcomes. *)
#[global] Instance outcome_ret : MRet outcome := @Returns.

#[global] Instance outcome_bind : MBind outcome := fun A B f m =>
  match m with
  | Returns a => f a
  | Raises e => Raises e
  end.

(** ** The module [json]: the decoder behind [json.loads]

    The decoder of CPython's [json] package with its default settings
    (strict strings, [NaN] and the infinities accepted, duplicate keys
    resolved to the last one), on the UTF-8 text of the document. The text
    left to read takes the place of the index into it. *)

Module json.

Definition expecting {A : Type} : outcome A := Raises JSONDecodeError.

Definition bytesN (l : list N) : string :=
  string_of_list_ascii (map ascii_of_N l).

(** [WHITESPACE]: space, tab, line feed, carriage return. *)
Definition is_ws (c : ascii) : bool :=
  let n := N_of_ascii c in
  (n =? 32)%N || (n =? 9)%N || (n =? 10)%N || (n =? 13)%N.

Fixpoint skip_ws (s : string) : string :=
  match s with
  | String c s' => if is_ws c then skip_ws s' else s
  | EmptyString => s
  end.

Definition digit_of (c : ascii) : option N :=
  let n := N_of_ascii c in
  if (48 <=? n)%N && (n <=? 57)%N then Some (n - 48)%N else None.

Definition hex_of (c : ascii) : option N :=
  let n := N_of_ascii c in
  if (48 <=? n)%N && (n <=? 57)%N then Some (n - 48)%N
  else if (97 <=? n)%N && (n <=? 102)%N then Some (n - 87)%N
  else if (65 <=? n)%N && (n <=? 70)%N then Some (n - 55)%N
  else None.

(** The longest run of decimal digits at the head of [s], and the rest. *)
Fixpoint digits (s : string) : list N * string :=
  match s with
  | String c s' =>
      match digit_of c with
      | Some d => let '(ds, r) := digits s' in (d :: ds, r)
      | None => ([], s)
      end
  | EmptyString => ([], s)
  end.

Definition of_digits (base : N) (ds : list N) : N :=
  fold_left (fun acc d => base * acc + d)%N ds 0%N.

(** [_decode_uXXXX]: exactly four hexadecimal digits. *)
Definition decode_uXXXX (s : string) : outcome (N * string) :=
  match s with
  | String a (String b (String c (String d r))) =>
      match hex_of a, hex_of b, hex_of c, hex_of d with
      | Some x, Some y, Some z, Some w => Returns (of_digits 16 [x; y; z; w], r)
      | _, _, _, _ => expecting
      end
  | _ => expecting
  end.

(** [chr(n)] in UTF-8 (a lone surrogate takes the three-byte form). *)
Definition utf8 (n : N) : string :=
  (if n <? 128 then bytesN [n]
   else if n <? 2048 then bytesN [192 + n / 64; 128 + n mod 64]
   else if n <? 65536 then
     bytesN [224 + n / 4096; 128 + (n / 64) mod 64; 128 + n mod 64]
   else
     bytesN [240 + n / 262144; 128 + (n / 4096) mod 64;
             128 + (n / 64) mod 64; 128 + n mod 64])%N.

(** [BACKSLASH]: a quote, a backslash and a slash stand for themselves;
    b, f, n, r and t for the control characters 8, 12, 10, 13 and 9. *)
Definition backslash (esc : ascii) : option ascii :=
  let n := N_of_ascii esc in
  if (n =? 34)%N || (n =? 92)%N || (n =? 47)%N then Some esc
  else if (n =? 98)%N then Some (ascii_of_N 8)
  else if (n =? 102)%N then Some (ascii_of_N 12)
  else if (n =? 110)%N then Some (ascii_of_N 10)
  else if (n =? 114)%N then Some (ascii_of_N 13)
  else if (n =? 116)%N then Some (ascii_of_N 9)
  else None.

(** After [\uXXXX] gave [uni]: a high surrogate directly followed by an
    escaped low surrogate makes one character with it. *)
Definition pair_surrogate (uni : N) (r : string) : outcome (N * string) :=
  if (55296 <=? uni)%N && (uni <=? 56319)%N then
    match r with
    | String b (String u r') =>
        if (N_of_ascii b =? 92)%N && (N_of_ascii u =? 117)%N then
          '(uni2, r'') ← decode_uXXXX r';
          if (56320 <=? uni2)%N && (uni2 <=? 57343)%N then
            Returns (65536 + ((uni - 55296) * 1024 + (uni2 - 56320)), r'')%N
          else Returns (uni, r)
        else Returns (uni, r)
    | _ => Returns (uni, r)
    end
  else Returns (uni, r).

(** [scanstring], from just after the opening quote: the decoded string and
    the text after the closing quote. *)
Fixpoint scanstring (fuel : nat) (s : string) : outcome (string * string) :=
  match fuel with
  | O => Raises RecursionError
  | S fuel' =>
      match s with
      | EmptyString => expecting
      | String c s' =>
          let n := N_of_ascii c in
          if (n =? 34)%N then Returns (EmptyString, s')
          else if (n =? 92)%N then
            match s' with
            | EmptyString => expecting
            | String esc s'' =>
                if (N_of_ascii esc =? 117)%N then
                  '(uni, r) ← decode_uXXXX s'';
                  '(uni, r) ← pair_surrogate uni r;
                  '(str, rest) ← scanstring fuel' r;
                  Returns (String.app (utf8 uni) str, rest)
                else
                  match backslash esc with
                  | Some ch =>
                      '(str, rest) ← scanstring fuel' s'';
                      Returns (String ch str, rest)
                  | None => expecting
                  end
            end
          else if (n <? 32)%N then expecting
          else
            '(str, rest) ← scanstring fuel' s';
            Returns (String c str, rest)
      end
  end.

(** The binary64 value nearest to [m * 10^e10], ties to even: what
    [float] makes of a decimal literal. *)
Definition to_binary64 (neg : bool) (m : N) (e10 : Z) : pyfloat :=
  if (m =? 0)%N then F_fin neg 0 0 else
  let num := if 0 <=? e10 then Z.of_N m * 10 ^ e10 else Z.of_N m in
  let den := if 0 <=? e10 then 1 else 10 ^ (- e10) in
  let scaled (e : Z) := if 0 <=? e then (num, den * 2 ^ e) else (num * 2 ^ (- e), den) in
  let e0 := Z.log2 num - Z.log2 den - 52 in
  let e1 := let '(n, d) := scaled e0 in if n / d <? 2 ^ 52 then e0 - 1 else e0 in
  let e := Z.max e1 (-1074) in
  let '(n, d) := scaled e in
  let q := n / d in
  let r := n mod d in
  let q := if (d <? 2 * r) || ((d =? 2 * r) && Z.odd q) then q + 1 else q in
  if (971 <? e) || ((e =? 971) && (q =? 2 ^ 53)) then F_inf neg
  else F_fin neg (Z.to_N q) e.

(** The three groups of [NUMBER_RE]: an optional minus sign and either a
    single zero or digits that do not start with zero; optionally a dot and
    digits; optionally e or E, an optional sign, and digits. *)
Definition match_integer (s : string) : option (bool * list N * string) :=
  let '(neg, s1) :=
    match s with
    | String c r => if Ascii.eqb c "-" then (true, r) else (false, s)
    | EmptyString => (false, s)
    end in
  match s1 with
  | String c r =>
      match digit_of c with
      | Some 0%N => Some (neg, [0%N], r)
      | Some d => let '(ds, r') := digits r in Some (neg, d :: ds, r')
      | None => None
      end
  | EmptyString => None
  end.

Definition match_frac (s : string) : list N * string :=
  match s with
  | String c r =>
      if Ascii.eqb c "." then
        match digits r with
        | (d :: ds, r') => (d :: ds, r')
        | ([], _) => ([], s)
        end
      else ([], s)
  | EmptyString => ([], s)
  end.

Definition match_exp (s : string) : option Z * string :=
  match s with
  | String c r =>
      if Ascii.eqb c "e" || Ascii.eqb c "E" then
        let '(sign, r1) :=
          match r with
          | String c' r' =>
              if Ascii.eqb c' "-" then (-1, r')
              else if Ascii.eqb c' "+" then (1, r')
              else (1, r)
          | EmptyString => (1, r)
          end in
        match digits r1 with
        | (d :: ds, r2) => (Some (sign * Z.of_N (of_digits 10 (d :: ds))), r2)
        | ([], _) => (None, s)
        end
      else (None, s)
  | EmptyString => (None, s)
  end.

(** [sys.get_int_max_str_digits()]: [int] refuses a longer literal with a
    [ValueError] (CPython 3.11 and later, default setting). *)
Definition int_max_str_digits : nat := 4300.

(** A number at the head of [s], if [NUMBER_RE] matches there: an [int]
    without fraction and exponent, a [float] otherwise. *)
Definition match_number (s : string) : option (outcome pyval * string) :=
  match match_integer s with
  | None => None
  | Some (neg, int, r) =>
      let '(frac, r) := match_frac r in
      let '(exp, r) := match_exp r in
      let res :=
        match frac, exp with
        | [], None =>
            if (int_max_str_digits <? List.length int)%nat then Raises ValueError
            else
              let n := Z.of_N (of_digits 10 int) in
              Returns (PyInt (if neg then - n else n))
        | _, _ =>
            Returns (PyFloat (to_binary64 neg (of_digits 10 (int ++ frac))
                                (default 0 exp - Z.of_nat (List.length frac))))
        end in
      Some (res, r)
  end.

(** The constants, tried after the number as in the scanner. *)
Definition match_constant (s : string) : outcome (pyval * string) :=
  match strip_prefix "NaN" s with
  | Some r => Returns (PyFloat F_nan, r)
  | None =>
  match strip_prefix "Infinity" s with
  | Some r => Returns (PyFloat (F_inf false), r)
  | None =>
  match strip_prefix "-Infinity" s with
  | Some r => Returns (PyFloat (F_inf true), r)
  | None => expecting
  end end end.

(** [scan_once], [JSONArray] from a value on, and [JSONObject] from just
    after the opening quote of a key on. Running out of fuel stands for
    nesting beyond what the interpreter allows. *)
Fixpoint scan_once (fuel : nat) (s : string) {struct fuel} : outcome (pyval * string) :=
  match fuel with
  | O => Raises RecursionError
  | S fuel' =>
      match s with
      | EmptyString => expecting
      | String c s' =>
          if Ascii.eqb c "034" then
            '(str, r) ← scanstring (S (String.length s')) s';
            Returns (PyStr str, r)
          else if Ascii.eqb c "{" then
            match skip_ws s' with
            | String c' r =>
                if Ascii.eqb c' "}" then Returns (PyDict ∅, r)
                else if Ascii.eqb c' "034" then JSONObject fuel' r ∅
                else expecting
            | EmptyString => expecting
            end
          else if Ascii.eqb c "[" then
            match skip_ws s' with
            | String c' r =>
                if Ascii.eqb c' "]" then Returns (PyList [], r)
                else JSONArray fuel' (skip_ws s') []
            | EmptyString => expecting
            end
          else
          match strip_prefix "null" s with
          | Some r => Returns (PyNone, r)
          | None =>
          match strip_prefix "true" s with
          | Some r => Returns (PyBool true, r)
          | None =>
          match strip_prefix "false" s with
          | Some r => Returns (PyBool false, r)
          | None =>
          match match_number s with
          | Some (res, r) => v ← res; Returns (v, r)
          | None => match_constant s
          end end end end
      end
  end
with JSONArray (fuel : nat) (s : string) (values : list pyval) {struct fuel}
    : outcome (pyval * string) :=
  match fuel with
  | O => Raises RecursionError
  | S fuel' =>
      '(value, r) ← scan_once fuel' s;
      let values := values ++ [value] in
      match skip_ws r with
      | String c r' =>
          if Ascii.eqb c "]" then Returns (PyList values, r')
          else if Ascii.eqb c "," then JSONArray fuel' (skip_ws r') values
          else expecting
      | EmptyString => expecting
      end
  end
with JSONObject (fuel : nat) (s : string) (pairs : gmap string pyval) {struct fuel}
    : outcome (pyval * string) :=
  match fuel with
  | O => Raises RecursionError
  | S fuel' =>
      '(key, r) ← scanstring (S (String.length s)) s;
      match skip_ws r with
      | String c r' =>
          if Ascii.eqb c ":" then
            '(value, r) ← scan_once fuel' (skip_ws r');
            let pairs := <[key := value]> pairs in
            match skip_ws r with
            | String c r' =>
                if Ascii.eqb c "}" then Returns (PyDict pairs, r')
                else if Ascii.eqb c "," then
                  match skip_ws r' with
                  | String c' r'' =>
                      if Ascii.eqb c' "034" then JSONObject fuel' r'' pairs
                      else expecting
                  | EmptyString => expecting
                  end
                else expecting
            | EmptyString => expecting
            end
          else expecting
      | EmptyString => expecting
      end
  end.

(** [JSONDecoder.decode]: one value, white space around it, nothing else. *)
Definition loads (s : string) : outcome pyval :=
  '(obj, r) ← scan_once (2 * String.length s + 1) (skip_ws s);
  match skip_ws r with
  | EmptyString => Returns obj
  | String _ _ => expecting
  end.

End json.

(** ** The dataclass [ClaudeCredentials] *)

Record ClaudeCredentials := {
  api_key : pyval;
  mcp_oauth_tokens : pyval;
  session_token : pyval
}.

Definition set_api_key (v : pyval) (c : ClaudeCredentials) : ClaudeCredentials :=
  {| api_key := v;
     mcp_oauth_tokens := mcp_oauth_tokens c;
     session_token := session_token c |}.

Definition set_mcp_oauth_tokens (v : pyval) (c : ClaudeCredentials) : ClaudeCredentials :=
  {| api_key := api_key c;
     mcp_oauth_tokens := v;
     session_token := session_token c |}.

Definition set_session_token (v : pyval) (c : ClaudeCredentials) : ClaudeCredentials :=
  {| api_key := api_key c;
     mcp_oauth_tokens := mcp_oauth_tokens c;
     session_token := v |}.

(** What [subprocess.run(cmd, capture_output=True, text=True, check=False)]
    hands back when it does not raise. *)
Record CompletedProcess := {
  returncode : Z;
  stdout : string
}.

(** How a block that may execute [return] ends: the function returns the
    bundle, or control falls out of the block with the bundle as it is. *)
Inductive flow :=
| Return_ (c : ClaudeCredentials)
| Next (c : ClaudeCredentials).

(** ** The class [TokenManager] *)

Module TokenManager.

Definition KEYCHAIN_SERVICES : gmap string string :=
  list_to_map
    [("claude_code", "Claude Code");
     ("claude_code_credentials", "Claude Code-credentials");
     ("claude_safe_storage", "Claude Safe Storage")].

Section Host.

(** [os.environ]. *)
Variable environ : gmap string string.
(** [subprocess.run] on an argument vector: the completed process, or the
    exception it raises (no such program, output that does not decode). *)
Variable security : list string -> outcome CompletedProcess.
(** [json.loads] on a string. *)
Variable json_loads : string -> outcome pyval.

Definition subprocess_run (cmd : list string) : M CompletedProcess :=
  fun t => (security cmd, t ++ [cmd]).

(** Printing is outside the model: [_log] changes nothing of it. *)
Definition _log : M unit := mret tt.

Definition _get_keychain_password
    (service : string) (account : option string) : M (option string) :=
  try_except
    (let cmd := ["security"; "find-generic-password"; "-s"; service; "-w"] in
     let cmd :=
       match account with
       | Some a => if str_truthy a then cmd ++ ["-a"; a] else cmd
       | None => cmd
       end in
     result ← subprocess_run cmd;
     if returncode result =? 0 then
       _ ← _log;
       mret (Some (py_strip (stdout result)))
     else
       _ ← _log;
       mret None)
    any_Exception
    (fun _ => _ ← _log; mret None).

Definition _extract_api_key_from_mcp_credentials
    (credentials_json : string) : M pyval :=
  try_except
    (data ← eval (json_loads credentials_json);
     has_key ← eval (py_contains "apiKey" data);
     if has_key : bool then eval (py_getitem data "apiKey") else
     has_anthropic ← eval (py_contains "anthropic" data);
     nested ←
       (if has_anthropic : bool then
          anthropic ← eval (py_getitem data "anthropic");
          if is_dict anthropic then
            anthropic ← eval (py_getitem data "anthropic");
            has_nested ← eval (py_contains "apiKey" anthropic);
            if has_nested : bool then
              anthropic ← eval (py_getitem data "anthropic");
              v ← eval (py_getitem anthropic "apiKey");
              mret (Some v)
            else mret None
          else mret None
        else mret None);
     match nested with
     | Some v => mret v
     | None =>
         has_tokens ← eval (py_contains "mcpOAuth" data);
         _ ← (if has_tokens : bool then
                tokens ← eval (py_getitem data "mcpOAuth");
                _ ← eval (py_len tokens);
                _log
              else mret tt);
         mret PyNone
     end)
    is_JSONDecodeError
    (fun _ => _ ← _log; mret PyNone).

(** The handler of the [try] around the second store resumes with the
    bundle as it was before the block: only [json.loads], the first
    statement of the block, can raise [JSONDecodeError] there (the
    extraction catches its own: [extract_not_JSONDecodeError]). *)
Definition get_claude_credentials (account : option string) : M ClaudeCredentials :=
  let credentials :=
    {| api_key := PyNone; mcp_oauth_tokens := PyNone; session_token := PyNone |} in
  service ← eval (dict_getitem KEYCHAIN_SERVICES "claude_code");
  claude_code_api_key ← _get_keychain_password service account;
  if match claude_code_api_key with
     | Some k => str_truthy k && startswith k "sk-ant-"
     | None => false
     end
  then
    _ ← _log;
    mret (set_api_key (of_opt_str claude_code_api_key) credentials)
  else
  service ← eval (dict_getitem KEYCHAIN_SERVICES "claude_code_credentials");
  claude_code_creds ← _get_keychain_password service account;
  after ←
    match claude_code_creds with
    | Some creds =>
        if str_truthy creds then
          try_except
            (creds_data ← eval (json_loads creds);
             tokens ← eval (py_get creds_data "mcpOAuth" (PyDict ∅));
             let credentials := set_mcp_oauth_tokens tokens credentials in
             key ← _extract_api_key_from_mcp_credentials creds;
             if py_truthy key then mret (Return_ (set_api_key key credentials))
             else mret (Next credentials))
            is_JSONDecodeError
            (fun _ => _ ← _log; mret (Next credentials))
        else mret (Next credentials)
    | None => mret (Next credentials)
    end;
  match after with
  | Return_ credentials => mret credentials
  | Next credentials =>
      service ← eval (dict_getitem KEYCHAIN_SERVICES "claude_safe_storage");
      safe_storage ← _get_keychain_password service None;
      if opt_truthy safe_storage && negb (py_truthy (api_key credentials)) then
        mret (set_session_token (of_opt_str safe_storage) credentials)
      else mret credentials
  end.

Definition get_anthropic_api_key : M pyval :=
  let key := environ !! "ANTHROPIC_API_KEY" in
  if opt_truthy key then
    _ ← _log;
    mret (of_opt_str key)
  else
  credentials ← get_claude_credentials None;
  if py_truthy (api_key credentials) then
    _ ← _log;
    mret (api_key credentials)
  else
    _ ← _log;
    mret PyNone.

Definition setup_environment (account : option string) : M (gmap string pyval) :=
  let env_vars : gmap string pyval := ∅ in
  key ← get_anthropic_api_key;
  if py_truthy key then
    let env_vars := <["ANTHROPIC_API_KEY" := key]> env_vars in
    _ ← _log;
    mret env_vars
  else mret env_vars.

End Host.

End TokenManager.

(** ** The module-level convenience functions *)

Definition get_api_key_from_keychain := TokenManager.get_anthropic_api_key.

Definition get_claude_credentials := TokenManager.get_claude_credentials.

(** ** Vocabulary of the properties *)

(** The three keychain services, in the order they are consulted. *)
Definition first_store : string := "Claude Code".
Definition second_store : string := "Claude Code-credentials".
Definition third_store : string := "Claude Safe Storage".

(** The command that queries [service] for [account]. *)
Definition query (service : string) (account : option string) : list string :=
  ["security"; "find-generic-password"; "-s"; service; "-w"] ++
  match account with
  | Some a => if str_truthy a then ["-a"; a] else []
  | None => []
  end.

(** What the keychain holds for [service] and [account], as the accessor
    reads it: the stripped output of a [security] run that exits with 0. *)
Definition stored (security : list string -> outcome CompletedProcess)
    (service : string) (account : option string) : option string :=
  match security (query service account) with
  | Returns r => if returncode r =? 0 then Some (py_strip (stdout r)) else None
  | Raises _ => None
  end.

(** The shape of a directly usable credential. *)
Definition is_api_key (o : option string) : bool :=
  match o with
  | Some k => str_truthy k && startswith k "sk-ant-"
  | None => false
  end.

(** The bundle a resolution starts from. *)
Definition no_credentials : ClaudeCredentials :=
  {| api_key := PyNone; mcp_oauth_tokens := PyNone; session_token := PyNone |}.

(** The credential field nested under the provider sub-object, when that
    sub-object is a JSON object. *)
Definition nested_key (d : gmap string pyval) : option pyval :=
  match d !! "anthropic" with
  | Some (PyDict a) => a !! "apiKey"
  | _ => None
  end.

(** The structured extraction on a decoded JSON object: the top-level
    field if present, else the nested field if present, else nothing (after
    the size of the token collection, if there is one, has been taken). *)
Definition extract_from (d : gmap string pyval) : outcome pyval :=
  match d !! "apiKey" with
  | Some v => Returns v
  | None =>
      match nested_key d with
      | Some v => Returns v
      | None =>
          match d !! "mcpOAuth" with
          | Some tokens => _ ← py_len tokens; Returns PyNone
          | None => Returns PyNone
          end
      end
  end.

(** What the second store contributes to a fresh bundle: the function
    returns at once, or goes on to the third store, or an exception
    escapes. *)
Definition second_stage (json_loads : string -> outcome pyval)
    (payload : option string) : outcome flow :=
  match payload with
  | Some creds =>
      if str_truthy creds then
        match json_loads creds with
        | Returns (PyDict d) =>
            let c :=
              set_mcp_oauth_tokens (default (PyDict ∅) (d !! "mcpOAuth")) no_credentials in
            key ← extract_from d;
            Returns (if py_truthy key then Return_ (set_api_key key c) else Next c)
        | Returns _ => Raises AttributeError
        | Raises JSONDecodeError => Returns (Next no_credentials)
        | Raises e => Raises e
        end
      else Returns (Next no_credentials)
  | None => Returns (Next no_credentials)
  end.

(** What the third store contributes to the bundle [c]. *)
Definition third_stage (security : list string -> outcome CompletedProcess)
    (c : ClaudeCredentials) : ClaudeCredentials :=
  let safe_storage := stored security third_store None in
  if opt_truthy safe_storage && negb (py_truthy (api_key c))
  then set_session_token (of_opt_str safe_storage) c
  else c.

(** The resolution as a function of what the stores hold: its outcome and
    the commands it runs, in order. *)
Definition resolve (security : list string -> outcome CompletedProcess)
    (json_loads : string -> outcome pyval) (account : option string)
    : outcome ClaudeCredentials * list (list string) :=
  let q1 := query first_store account in
  let q2 := query second_store account in
  let q3 := query third_store None in
  let first := stored security first_store account in
  if is_api_key first then
    (Returns (set_api_key (of_opt_str first) no_credentials), [q1])
  else
    match second_stage json_loads (stored security second_store account) with
    | Returns (Return_ c) => (Returns c, [q1; q2])
    | Returns (Next c) => (Returns (third_stage security c), [q1; q2; q3])
    | Raises e => (Raises e, [q1; q2])
    end.

(** A computation that runs no command: it leaves the trace as it found
    it, whatever it returns or raises. *)
Definition silent {A : Type} (m : M A) : Prop := forall t, snd (m t) = t.

(** A scanner's result on the text [s] that is not a failure of fuel and,
    when it is a value, leaves a text shorter than [s]. *)
Definition fuelled {A : Type} (r : outcome A) : Prop :=
  match r with
  | Raises RecursionError => False
  | _ => True
  end.

Definition consumes {A : Type} (r : outcome (A * string)) (s : string) : Prop :=
  fuelled r /\
  forall v rest, r = Returns (v, rest) -> (String.length rest < String.length s)%nat.

(** The override variable. *)
Definition override_key : string := "ANTHROPIC_API_KEY".

(** [s.endswith(w)]. *)
Definition endswith (s w : string) : bool :=
  String.prefix (String.rev w) (String.rev s).

(** A secret the resolution takes into account: an empty one counts as
    none. *)
Definition present (o : option string) : option string :=
  if opt_truthy o then o else None.

(** [name in v] for an array (an element equal to [name]) or a string (an
    occurrence of [name]). *)
Definition mentions (v : pyval) (name : string) : bool :=
  match v with
  | PyList l => existsb (eq_str name) l
  | PyStr s => str_contains name s
  | _ => false
  end.

(** A decoded JSON value that is neither a container nor a string. *)
Definition is_scalar (v : pyval) : bool :=
  match v with
  | PyNone | PyBool _ | PyInt _ | PyFloat _ => true
  | PyStr _ | PyList _ | PyDict _ => false
  end.

(** The three stores' queries of a resolution for [account], in order. *)
Definition store_queries (account : option string) : list (list string) :=
  [query first_store account; query second_store account; query third_store None].

(** ** Keychains and documents of the scenarios *)

(** JSON text written with an apostrophe for each double quote. *)
Fixpoint dq (s : string) : string :=
  match s with
  | EmptyString => EmptyString
  | String c s' => String (if Ascii.eqb c "'" then "034"%char else c) (dq s')
  end.

Definition newline : string := String "010" EmptyString.

(** A keychain with the given (service, secret) entries, for any account:
    [security] prints the secret and a newline and exits with 0 for a
    service it holds, and exits with 44 for one it does not. *)
Definition keychain (entries : list (string * string)) (cmd : list string)
    : outcome CompletedProcess :=
  match cmd with
  | "security" :: "find-generic-password" :: "-s" :: service :: "-w" :: _ =>
      match List.find (fun e => String.eqb (fst e) service) entries with
      | Some (_, secret) => Returns {| returncode := 0; stdout := String.app secret newline |}
      | None => Returns {| returncode := 44; stdout := EmptyString |}
      end
  | _ => Raises OSError
  end.

(** The document of the specification's scenario for the second store. *)
Definition scenario_doc : string :=
  dq "{'mcpOAuth': {'svc1': {'accessToken': 'tok'}}, 'anthropic': {'apiKey': 'sk-ant-xyz123'}}".

Definition scenario_object : gmap string pyval :=
  <["mcpOAuth" := PyDict {[ "svc1" := PyDict {[ "accessToken" := PyStr "tok" ]} ]} ]>
    {[ "anthropic" := PyDict {[ "apiKey" := PyStr "sk-ant-xyz123" ]} ]}.

(** A document whose top-level credential field is present but empty while
    the nested one is a non-empty string. *)
Definition empty_top_doc : string :=
  dq "{'apiKey': '', 'anthropic': {'apiKey': 'sk-ant-nested'}}".

Definition empty_top_object : gmap string pyval :=
  <["apiKey" := PyStr EmptyString]>
    {[ "anthropic" := PyDict {[ "apiKey" := PyStr "sk-ant-nested" ]} ]}.

Fixpoint repeat_char (c : ascii) (n : nat) : string :=
  match n with
  | O => EmptyString
  | S n' => String c (repeat_char c n')
  end.

(** A payload that is not JSON (the array is never closed) and on which
    the decoder fails with [ValueError], not [JSONDecodeError]: an opening
    bracket and an integer literal of 4301 digits, one more than [int]
    converts. *)
Definition long_number_doc : string :=
  String "[" (repeat_char "1" (S json.int_max_str_digits)).

(** A host without the [security] program: every run raises. *)
Definition no_keychain (cmd : list string) : outcome CompletedProcess := Raises OSError.

(** ** The decoder never runs out of fuel *)

Module json_facts.
Import json.

Lemma skip_ws_length (s : string) :
  (String.length (skip_ws s) <= String.length s)%nat.
Proof.
  induction s as [|c s IH]; simpl; [lia|].
  destruct (is_ws c); simpl; lia.
Qed.

Lemma digits_length (s : string) :
  (String.length (snd (digits s)) <= String.length s)%nat.
Proof.
  induction s as [|c s IH]; simpl; [lia|].
  destruct (digit_of c); simpl; [|lia].
  destruct (digits s); simpl in *. lia.
Qed.

Lemma strip_prefix_length (p s r : string) :
  strip_prefix p s = Some r ->
  (String.length r + String.length p = String.length s)%nat.
Proof.
  revert s. induction p as [|a p IH]; intros [|b s]; simpl; try congruence.
  - intros [= <-]. reflexivity.
  - intros [= <-]. simpl. lia.
  - destruct (Ascii.eqb a b); [|discriminate].
    intros H. apply IH in H. lia.
Qed.

Lemma decode_uXXXX_length (s : string) (n : N) (r : string) :
  decode_uXXXX s = Returns (n, r) ->
  (String.length r + 4 = String.length s)%nat.
Proof.
  unfold decode_uXXXX.
  destruct s as [|a [|b [|c [|d s]]]]; try discriminate.
  destruct (hex_of a), (hex_of b), (hex_of c), (hex_of d); try discriminate.
  intros [= _ <-]. simpl. lia.
Qed.

Lemma decode_uXXXX_fuel (s : string) : fuelled (decode_uXXXX s).
Proof.
  unfold decode_uXXXX.
  destruct s as [|a [|b [|c [|d s]]]]; try exact I.
  destruct (hex_of a), (hex_of b), (hex_of c), (hex_of d); exact I.
Qed.

Lemma pair_surrogate_ok (uni : N) (r : string) :
  fuelled (pair_surrogate uni r) /\
  forall n r', pair_surrogate uni r = Returns (n, r') ->
    (String.length r' <= String.length r)%nat.
Proof.
  unfold pair_surrogate.
  destruct (_ && _); [|split; [exact I | intros n r' [= _ <-]; lia]].
  destruct r as [|b [|u r1]];
    try (split; [exact I | intros n r' [= _ <-]; lia]).
  destruct (_ && _); [|split; [exact I | intros n r' [= _ <-]; lia]].
  pose proof (decode_uXXXX_fuel r1) as Hf.
  destruct (decode_uXXXX r1) as [[uni2 r2]|e] eqn:Hd; simpl.
  - apply decode_uXXXX_length in Hd.
    destruct (_ && _); (split; [exact I | intros n r' [= _ <-]; simpl; lia]).
  - split; [exact Hf | discriminate].
Qed.

Lemma scanstring_consumes (fuel : nat) (s : string) :
  (String.length s < fuel)%nat ->
  fuelled (scanstring fuel s) /\
  forall str rest, scanstring fuel s = Returns (str, rest) ->
    (String.length rest < String.length s)%nat.
Proof.
  revert s. induction fuel as [|fuel IH]; intros s Hf; [lia|].
  simpl. destruct s as [|c s]; [split; [exact I | discriminate]|].
  simpl in Hf.
  destruct (_ =? 34)%N; [split; [exact I | intros ? ? [= _ <-]; simpl; lia]|].
  destruct (_ =? 92)%N.
  - destruct s as [|esc s]; [split; [exact I | discriminate]|]. simpl in Hf.
    destruct (_ =? 117)%N.
    + pose proof (decode_uXXXX_fuel s) as Hdf.
      destruct (decode_uXXXX s) as [[uni r]|e] eqn:Hd; simpl;
        [|split; [exact Hdf | discriminate]].
      apply decode_uXXXX_length in Hd.
      destruct (pair_surrogate_ok uni r) as [Hp1 Hp2].
      destruct (pair_surrogate uni r) as [[uni' r']|e] eqn:Hp; simpl;
        [|split; [exact Hp1 | discriminate]].
      specialize (Hp2 _ _ eq_refl).
      destruct (IH r' ltac:(lia)) as [H1 H2].
      destruct (scanstring fuel r') as [[str rest]|e]; simpl;
        [|split; [exact H1 | discriminate]].
      split; [exact I|]. intros ? ? [= _ <-].
      specialize (H2 _ _ eq_refl). simpl. lia.
    + destruct (backslash esc); [|split; [exact I | discriminate]].
      destruct (IH s ltac:(lia)) as [H1 H2].
      destruct (scanstring fuel s) as [[str rest]|e]; simpl;
        [|split; [exact H1 | discriminate]].
      split; [exact I|]. intros ? ? [= _ <-].
      specialize (H2 _ _ eq_refl). simpl. lia.
  - destruct (_ <? 32)%N; [split; [exact I | discriminate]|].
    destruct (IH s ltac:(lia)) as [H1 H2].
    destruct (scanstring fuel s) as [[str rest]|e]; simpl;
      [|split; [exact H1 | discriminate]].
    split; [exact I|]. intros ? ? [= _ <-].
    specialize (H2 _ _ eq_refl). simpl. lia.
Qed.

Lemma match_integer_length (s : string) (neg : bool) (int : list N) (r : string) :
  match_integer s = Some (neg, int, r) ->
  (String.length r < String.length s)%nat.
Proof.
  unfold match_integer.
  assert (Hd : forall (b : bool) (s1 : string),
    match s1 with
    | String c r0 =>
        match digit_of c with
        | Some 0%N => Some (b, [0%N], r0)
        | Some d => let '(ds, r') := digits r0 in Some (b, d :: ds, r')
        | None => None
        end
    | EmptyString => None
    end = Some (neg, int, r) -> (String.length r < String.length s1)%nat).
  { intros b [|c r0]; [discriminate|].
    destruct (digit_of c) as [[|p]|]; [| |discriminate].
    - intros [= _ _ <-]. simpl. lia.
    - pose proof (digits_length r0) as Hl.
      destruct (digits r0) as [ds r']. intros [= _ _ <-]. simpl in *. lia. }
  destruct s as [|c s']; [discriminate|].
  destruct (Ascii.eqb c "-").
  - intros H. apply Hd in H. simpl. lia.
  - apply (Hd false (String c s')).
Qed.

Lemma match_frac_length (s : string) :
  (String.length (snd (match_frac s)) <= String.length s)%nat.
Proof.
  unfold match_frac. destruct s as [|c r]; simpl; [lia|].
  destruct (Ascii.eqb c "."); simpl; [|lia].
  pose proof (digits_length r) as Hl.
  destruct (digits r) as [[|d ds] r']; simpl in *; lia.
Qed.

Lemma match_exp_length (s : string) :
  (String.length (snd (match_exp s)) <= String.length s)%nat.
Proof.
  unfold match_exp. destruct s as [|c r]; simpl; [lia|].
  destruct (_ || _); simpl; [|lia].
  destruct r as [|c' r'].
  - simpl. lia.
  - destruct (Ascii.eqb c' "-"); [|destruct (Ascii.eqb c' "+")].
    + pose proof (digits_length r') as Hl.
      destruct (digits r') as [[|d ds] r2]; simpl in *; lia.
    + pose proof (digits_length r') as Hl.
      destruct (digits r') as [[|d ds] r2]; simpl in *; lia.
    + pose proof (digits_length (String c' r')) as Hl.
      destruct (digits (String c' r')) as [[|d ds] r2]; simpl in *; lia.
Qed.

Lemma match_number_consumes (s : string) (res : outcome pyval) (r : string) :
  match_number s = Some (res, r) ->
  fuelled res /\ (String.length r < String.length s)%nat.
Proof.
  unfold match_number.
  destruct (match_integer s) as [[[neg int] r0]|] eqn:Hi; [|discriminate].
  apply match_integer_length in Hi.
  pose proof (match_frac_length r0) as Hf.
  destruct (match_frac r0) as [frac r1]. simpl in Hf.
  pose proof (match_exp_length r1) as He.
  destruct (match_exp r1) as [exp r2]. simpl in He.
  intros [= <- <-]. split; [|lia].
  destruct frac; [destruct exp|]; try exact I.
  destruct (_ <? _)%nat; exact I.
Qed.

Lemma match_constant_consumes (s : string) : consumes (match_constant s) s.
Proof.
  unfold match_constant, consumes.
  destruct (strip_prefix "NaN" s) eqn:H1;
    [|destruct (strip_prefix "Infinity" s) eqn:H2;
      [|destruct (strip_prefix "-Infinity" s) eqn:H3]];
    (split; [exact I|]); try discriminate;
    intros v rest [= _ <-];
    match goal with H : strip_prefix _ _ = Some _ |- _ =>
      apply strip_prefix_length in H; simpl in H; lia
    end.
Qed.

Ltac stuck := split; [exact I | discriminate].

#[local] Arguments scanstring : simpl never.
#[local] Arguments strip_prefix : simpl never.
#[local] Arguments match_number : simpl never.
#[local] Arguments match_constant : simpl never.
#[local] Arguments skip_ws : simpl never.

Lemma scanner_consumes (fuel : nat) :
  (forall s, (2 * String.length s < fuel)%nat -> consumes (scan_once fuel s) s) /\
  (forall s values, (2 * String.length s + 1 < fuel)%nat ->
     consumes (JSONArray fuel s values) s) /\
  (forall s pairs, (2 * String.length s + 1 < fuel)%nat ->
     consumes (JSONObject fuel s pairs) s).
Proof.
  induction fuel as [|fuel (IHv & IHa & IHo)]; [repeat split; intros; lia|].
  split; [|split].
  - intros s Hf. unfold consumes. simpl.
    destruct s as [|c s]; [stuck|]. simpl in Hf.
    destruct (Ascii.eqb c "034").
    { destruct (scanstring_consumes (S (String.length s)) s ltac:(lia)) as [H1 H2].
      destruct (scanstring _ s) as [[str r]|e]; simpl; [|split; [exact H1|discriminate]].
      split; [exact I|]. intros ? ? [= _ <-]. specialize (H2 _ _ eq_refl). simpl. lia. }
    destruct (Ascii.eqb c "{").
    { pose proof (skip_ws_length s) as Hw.
      destruct (skip_ws s) as [|c' r]; [stuck|]. simpl in Hw.
      destruct (Ascii.eqb c' "}");
        [split; [exact I | intros ? ? [= _ <-]; simpl; lia]|].
      destruct (Ascii.eqb c' "034"); [|stuck].
      destruct (IHo r ∅ ltac:(lia)) as [H1 H2].
      split; [exact H1|]. intros v rest Hr. specialize (H2 _ _ Hr). simpl. lia. }
    destruct (Ascii.eqb c "[").
    { pose proof (skip_ws_length s) as Hw.
      destruct (skip_ws s) as [|c' r] eqn:Hs; [stuck|]. simpl in Hw.
      destruct (Ascii.eqb c' "]");
        [split; [exact I | intros ? ? [= _ <-]; simpl; lia]|].
      destruct (IHa (String c' r) [] ltac:(simpl; lia)) as [H1 H2].
      split; [exact H1|]. intros v rest Hr. specialize (H2 _ _ Hr). simpl in *. lia. }
    destruct (strip_prefix "null" (String c s)) eqn:Hn.
    { apply strip_prefix_length in Hn. simpl in Hn.
      split; [exact I | intros ? ? [= _ <-]; simpl; lia]. }
    destruct (strip_prefix "true" (String c s)) eqn:Ht.
    { apply strip_prefix_length in Ht. simpl in Ht.
      split; [exact I | intros ? ? [= _ <-]; simpl; lia]. }
    destruct (strip_prefix "false" (String c s)) eqn:Hfa.
    { apply strip_prefix_length in Hfa. simpl in Hfa.
      split; [exact I | intros ? ? [= _ <-]; simpl; lia]. }
    destruct (match_number (String c s)) as [[res r]|] eqn:Hm.
    { apply match_number_consumes in Hm as [Hm1 Hm2].
      destruct res as [v|e]; simpl; [|split; [exact Hm1 | discriminate]].
      split; [exact I | intros ? ? [= _ <-]; exact Hm2]. }
    apply match_constant_consumes.
  - intros s values Hf. unfold consumes. simpl.
    destruct (IHv s ltac:(lia)) as [H1 H2].
    destruct (scan_once fuel s) as [[value r]|e]; simpl;
      [|split; [exact H1 | discriminate]].
    specialize (H2 _ _ eq_refl).
    pose proof (skip_ws_length r) as Hw.
    destruct (skip_ws r) as [|c r']; [stuck|]. simpl in Hw.
    destruct (Ascii.eqb c "]");
      [split; [exact I | intros ? ? [= _ <-]; lia]|].
    destruct (Ascii.eqb c ","); [|stuck].
    pose proof (skip_ws_length r') as Hw'.
    destruct (IHa (skip_ws r') (values ++ [value]) ltac:(lia)) as [H3 H4].
    split; [exact H3|]. intros v rest Hr. specialize (H4 _ _ Hr). lia.
  - intros s pairs Hf. unfold consumes. simpl.
    destruct (scanstring_consumes (S (String.length s)) s ltac:(lia)) as [H1 H2].
    destruct (scanstring _ s) as [[key r]|e]; simpl;
      [|split; [exact H1 | discriminate]].
    specialize (H2 _ _ eq_refl).
    pose proof (skip_ws_length r) as Hw.
    destruct (skip_ws r) as [|c r']; [stuck|]. simpl in Hw.
    destruct (Ascii.eqb c ":"); [|stuck].
    pose proof (skip_ws_length r') as Hw'.
    destruct (IHv (skip_ws r') ltac:(lia)) as [H3 H4].
    destruct (scan_once fuel (skip_ws r')) as [[value r1]|e]; simpl;
      [|split; [exact H3 | discriminate]].
    specialize (H4 _ _ eq_refl).
    pose proof (skip_ws_length r1) as Hw1.
    destruct (skip_ws r1) as [|c1 r2]; [stuck|]. simpl in Hw1.
    destruct (Ascii.eqb c1 "}");
      [split; [exact I | intros ? ? [= _ <-]; lia]|].
    destruct (Ascii.eqb c1 ","); [|stuck].
    pose proof (skip_ws_length r2) as Hw2.
    destruct (skip_ws r2) as [|c2 r3]; [stuck|]. simpl in Hw2.
    destruct (Ascii.eqb c2 "034"); [|stuck].
    destruct (IHo r3 (<[key := value]> pairs) ltac:(lia)) as [H5 H6].
    split; [exact H5|]. intros v rest Hr. specialize (H6 _ _ Hr). lia.
Qed.

(** [loads] is total on the decoder's own terms: its fuel is never used up,
    so every failure it reports is one of the document. *)
Lemma loads_fuelled (s : string) : loads s <> Raises RecursionError.
Proof.
  unfold loads.
  pose proof (skip_ws_length s) as Hw.
  destruct (proj1 (scanner_consumes (2 * String.length s + 1)) (skip_ws s) ltac:(lia))
    as [H1 _].
  destruct (scan_once _ (skip_ws s)) as [[obj r]|e]; simpl.
  - destruct (skip_ws r); discriminate.
  - intros [= ->]. exact H1.
Qed.

End json_facts.

(** ** Running computations *)

Lemma run_bind {A B : Type} (m : M A) (f : A -> M B) (t : trace) :
  (m ≫= f) t =
  match m t with
  | (Returns a, t') => f a t'
  | (Raises e, t') => (Raises e, t')
  end.
Proof. reflexivity. Qed.

Lemma run_ret {A : Type} (a : A) (t : trace) : (mret a : M A) t = (Returns a, t).
Proof. reflexivity. Qed.

Lemma silent_ret {A : Type} (a : A) : silent (mret a : M A).
Proof. intros t. reflexivity. Qed.

Lemma silent_eval {A : Type} (o : outcome A) : silent (eval o).
Proof. intros t. reflexivity. Qed.

Lemma silent_bind {A B : Type} (m : M A) (f : A -> M B) :
  silent m -> (forall a, silent (f a)) -> silent (m ≫= f).
Proof.
  intros Hm Hf t. rewrite run_bind. specialize (Hm t).
  destruct (m t) as [[a|e] t']; simpl in Hm; subst t'; [apply Hf | reflexivity].
Qed.

Lemma silent_try {A : Type} (body : M A) (catches : exn -> bool) (handler : exn -> M A) :
  silent body -> (forall e, silent (handler e)) -> silent (try_except body catches handler).
Proof.
  intros Hb Hh t. unfold try_except. specialize (Hb t).
  destruct (body t) as [[a|e] t']; simpl in Hb; subst t'; [reflexivity|].
  destruct (catches e); [apply Hh | reflexivity].
Qed.

Ltac silent_steps :=
  repeat first
    [ apply silent_ret
    | apply silent_eval
    | apply silent_bind; [|intros]
    | apply silent_try; [|intros]
    | match goal with
      | |- silent (if ?b then _ else _) => destruct b
      | |- silent (match ?x with _ => _ end) => destruct x
      end ].

Section Accessor.

Variable security : list string -> outcome CompletedProcess.

(** The accessor is total: it runs exactly one command and returns what
    the keychain holds, never raising. *)
Lemma get_keychain_password_run (service : string) (account : option string) (t : trace) :
  TokenManager._get_keychain_password security service account t =
  (Returns (stored security service account), t ++ [query service account]).
Proof.
  unfold TokenManager._get_keychain_password, try_except, stored, query.
  rewrite run_bind. unfold TokenManager.subprocess_run.
  assert (Hcmd :
    match account with
    | Some a =>
        if str_truthy a
        then ["security"; "find-generic-password"; "-s"; service; "-w"] ++ ["-a"; a]
        else ["security"; "find-generic-password"; "-s"; service; "-w"]
    | None => ["security"; "find-generic-password"; "-s"; service; "-w"]
    end =
    ["security"; "find-generic-password"; "-s"; service; "-w"] ++
    match account with
    | Some a => if str_truthy a then ["-a"; a] else []
    | None => []
    end).
  { destruct account as [a|]; [destruct (str_truthy a)|]; reflexivity. }
  rewrite Hcmd.
  destruct (security _) as [r|e]; [|reflexivity].
  destruct (returncode r =? 0); reflexivity.
Qed.

End Accessor.

Section Extraction.

Variable json_loads : string -> outcome pyval.

Local Abbreviation extract := (TokenManager._extract_api_key_from_mcp_credentials json_loads).

(** The extraction runs no command. *)
Lemma extract_silent (s : string) : silent (extract s).
Proof.
  unfold TokenManager._extract_api_key_from_mcp_credentials,
    TokenManager._log.
  silent_steps.
Qed.

(** A decoding failure never leaves the extraction. *)
Lemma extract_not_JSONDecodeError (s : string) (t : trace) :
  fst (extract s t) <> Raises JSONDecodeError.
Proof.
  unfold TokenManager._extract_api_key_from_mcp_credentials, try_except.
  match goal with |- fst (match ?b t with _ => _ end) <> _ =>
    destruct (b t) as [[v|e] t']
  end; [discriminate|].
  destruct e; simpl; discriminate.
Qed.

(** On a JSON object the extraction is [extract_from]. *)
Lemma extract_dict (s : string) (d : gmap string pyval) (t : trace) :
  json_loads s = Returns (PyDict d) ->
  extract s t = (extract_from d, t).
Proof.
  intros Hd.
  unfold TokenManager._extract_api_key_from_mcp_credentials, try_except,
    TokenManager._log, extract_from, nested_key, eval.
  rewrite Hd. unfold mbind, M_bind, mret, M_ret. simpl.
  destruct (d !! "apiKey") as [v|]; [reflexivity|].
  destruct (d !! "anthropic") as [[| | | | | |a]|]; simpl;
    try (destruct (a !! "apiKey"); [reflexivity|]);
    (destruct (d !! "mcpOAuth") as [[]|]; reflexivity).
Qed.

End Extraction.

Section Resolution.

Variable security : list string -> outcome CompletedProcess.
Variable json_loads : string -> outcome pyval.

Lemma service_first :
  dict_getitem TokenManager.KEYCHAIN_SERVICES "claude_code" = Returns first_store.
Proof. vm_compute. reflexivity. Qed.

Lemma service_second :
  dict_getitem TokenManager.KEYCHAIN_SERVICES "claude_code_credentials" = Returns second_store.
Proof. vm_compute. reflexivity. Qed.

Lemma service_third :
  dict_getitem TokenManager.KEYCHAIN_SERVICES "claude_safe_storage" = Returns third_store.
Proof. vm_compute. reflexivity. Qed.

(** The only exception of the extraction on a JSON object is the
    [TypeError] of [len] on a token collection that has no length. *)
Lemma extract_from_raises (d : gmap string pyval) (e : exn) :
  extract_from d = Raises e -> e = TypeError.
Proof.
  unfold extract_from.
  destruct (d !! "apiKey"); [discriminate|].
  destruct (nested_key d); [discriminate|].
  destruct (d !! "mcpOAuth") as [[]|]; simpl; congruence.
Qed.

(** The method computes [resolve], appending its commands to the trace. *)
Lemma get_claude_credentials_run (account : option string) (t : trace) :
  TokenManager.get_claude_credentials security json_loads account t =
  (fst (resolve security json_loads account),
   t ++ snd (resolve security json_loads account)).
Proof.
  unfold TokenManager.get_claude_credentials, resolve.
  rewrite service_first, service_second, service_third.
  rewrite run_bind. unfold eval at 1.
  rewrite run_bind, get_keychain_password_run.
  fold (is_api_key (stored security first_store account)).
  destruct (is_api_key (stored security first_store account)); [reflexivity|].
  rewrite run_bind. unfold eval at 1.
  rewrite run_bind, get_keychain_password_run.
  rewrite run_bind.
  match goal with |- context [?b ((t ++ _) ++ _)] =>
    assert (Hblock : forall t',
      b t' = (second_stage json_loads (stored security second_store account), t'))
  end.
  { intros t'. unfold second_stage.
    destruct (stored security second_store account) as [creds|]; [|reflexivity].
    destruct (str_truthy creds); [|reflexivity].
    unfold try_except. rewrite run_bind. unfold eval at 1.
    destruct (json_loads creds) as [v|e] eqn:Hv; [|destruct e; reflexivity].
    destruct v; try reflexivity.
    rewrite run_bind. unfold eval at 1. simpl py_get. cbv beta iota.
    rewrite run_bind, (extract_dict _ _ _ _ Hv).
    destruct (extract_from d) as [k|e] eqn:Hk; simpl.
    - destruct (py_truthy k); reflexivity.
    - rewrite (extract_from_raises _ _ Hk). reflexivity. }
  rewrite Hblock.
  destruct (second_stage json_loads _) as [[c|c]|e]; simpl.
  - rewrite <- app_assoc. reflexivity.
  - rewrite run_bind. unfold eval at 1.
    rewrite run_bind, get_keychain_password_run.
    unfold third_stage. rewrite <- !app_assoc. simpl.
    destruct (_ && _); reflexivity.
  - rewrite <- app_assoc. reflexivity.
Qed.

End Resolution.

(** ** Invariants of the resolution *)

Section Invariants.

Variable security : list string -> outcome CompletedProcess.
Variable json_loads : string -> outcome pyval.

Lemma is_api_key_Some (o : option string) :
  is_api_key o = true ->
  exists k, o = Some k /\ str_truthy k = true /\ startswith k "sk-ant-" = true.
Proof.
  destruct o as [k|]; simpl; [|discriminate].
  intros H. apply andb_true_iff in H. exists k. tauto.
Qed.

(** A bundle the second store returns at once carries a credential and
    no session token. *)
Lemma second_stage_Return (payload : option string) (c : ClaudeCredentials) :
  second_stage json_loads payload = Returns (Return_ c) ->
  py_truthy (api_key c) = true /\ session_token c = PyNone.
Proof.
  unfold second_stage.
  destruct payload as [creds|]; [|discriminate].
  destruct (str_truthy creds); [|discriminate].
  destruct (json_loads creds) as [[]|[]]; try discriminate.
  destruct (extract_from d) as [k|e]; simpl; [|discriminate].
  destruct (py_truthy k) eqn:Hk; [|discriminate].
  intros [= <-]. simpl. auto.
Qed.

(** A bundle that goes on to the third store carries neither. *)
Lemma second_stage_Next (payload : option string) (c : ClaudeCredentials) :
  second_stage json_loads payload = Returns (Next c) ->
  api_key c = PyNone /\ session_token c = PyNone.
Proof.
  unfold second_stage.
  destruct payload as [creds|]; [|intros [= <-]; auto].
  destruct (str_truthy creds); [|intros [= <-]; auto].
  destruct (json_loads creds) as [[]|[]]; try discriminate;
    try (intros [= <-]; auto).
  destruct (extract_from d) as [k|e]; simpl; [|discriminate].
  destruct (py_truthy k); [discriminate|].
  intros [= <-]. simpl. auto.
Qed.

Lemma third_stage_api_key (c : ClaudeCredentials) :
  api_key (third_stage security c) = api_key c.
Proof. unfold third_stage. destruct (_ && _); reflexivity. Qed.

Lemma third_stage_mcp_oauth_tokens (c : ClaudeCredentials) :
  mcp_oauth_tokens (third_stage security c) = mcp_oauth_tokens c.
Proof. unfold third_stage. destruct (_ && _); reflexivity. Qed.

(** The primary credential of a returned bundle is [None] or true. *)
Lemma resolve_api_key (account : option string) (c : ClaudeCredentials) :
  fst (resolve security json_loads account) = Returns c ->
  api_key c = PyNone \/ py_truthy (api_key c) = true.
Proof.
  unfold resolve.
  destruct (is_api_key _) eqn:H1.
  - apply is_api_key_Some in H1 as (k & -> & Hk & _).
    simpl. intros [= <-]. right. exact Hk.
  - destruct (second_stage _ _) as [[c'|c']|e] eqn:H2; simpl; intros [= <-].
    + right. apply (second_stage_Return _ _ H2).
    + left. rewrite third_stage_api_key. apply (second_stage_Next _ _ H2).
Qed.

End Invariants.

(** ** The override and the materialised environment *)

Section Override.

Variable environ : gmap string string.
Variable security : list string -> outcome CompletedProcess.
Variable json_loads : string -> outcome pyval.

Local Abbreviation get_credentials :=
  (TokenManager.get_claude_credentials security json_loads).
Local Abbreviation get_anthropic_api_key :=
  (TokenManager.get_anthropic_api_key environ security json_loads).
Local Abbreviation setup_environment :=
  (TokenManager.setup_environment environ security json_loads).

(** Without a usable override the key is the primary credential of the
    resolution for no account. *)
Lemma get_anthropic_api_key_delegates (t : trace) :
  opt_truthy (environ !! override_key) = false ->
  get_anthropic_api_key t =
  match get_credentials None t with
  | (Returns c, t') => (Returns (api_key c), t')
  | (Raises e, t') => (Raises e, t')
  end.
Proof.
  intros H. unfold TokenManager.get_anthropic_api_key.
  fold override_key. rewrite H, run_bind.
  destruct (get_credentials None t) as [[c|e] t'] eqn:Hrun; [|reflexivity].
  rewrite get_claude_credentials_run in Hrun.
  injection Hrun as Hc _.
  destruct (resolve_api_key _ _ _ _ Hc) as [Hn|Ht]; rewrite ?Hn, ?Ht; reflexivity.
Qed.

(** The key is [None] or true, never an empty value. *)
Lemma get_anthropic_api_key_truthy (t t' : trace) (v : pyval) :
  get_anthropic_api_key t = (Returns v, t') ->
  v = PyNone \/ py_truthy v = true.
Proof.
  destruct (opt_truthy (environ !! override_key)) eqn:H.
  - unfold TokenManager.get_anthropic_api_key. fold override_key. rewrite H.
    intros [= <- _]. right.
    destruct (environ !! override_key); [exact H | discriminate].
  - rewrite (get_anthropic_api_key_delegates _ H), get_claude_credentials_run.
    destruct (fst (resolve _ _ _)) as [c|e] eqn:Hc; [|discriminate].
    intros [= <- _]. apply (resolve_api_key _ _ _ _ Hc).
Qed.

(** C2. If [ANTHROPIC_API_KEY] is set and not empty,
    [get_anthropic_api_key] returns exactly its value and runs no store
    query (the trace is unchanged). If it is unset or empty, the method
    is [get_claude_credentials] for no account followed by reading the
    primary credential of the bundle, which is [None] when none was
    resolved. *)
Theorem C2_override_precedence (t : trace) :
  (forall v : string,
     environ !! override_key = Some v -> v <> EmptyString ->
     get_anthropic_api_key t = (Returns (PyStr v), t)) /\
  (environ !! override_key = None \/ environ !! override_key = Some EmptyString ->
     get_anthropic_api_key t =
     match get_credentials None t with
     | (Returns c, t') => (Returns (api_key c), t')
     | (Raises e, t') => (Raises e, t')
     end).
Proof.
  split.
  - intros v Hv Hne. unfold TokenManager.get_anthropic_api_key.
    fold override_key. rewrite Hv. simpl.
    destruct v; [congruence | reflexivity].
  - intros H. apply get_anthropic_api_key_delegates.
    destruct H as [-> | ->]; reflexivity.
Qed.

(** C7. Whatever [get_anthropic_api_key] returns from a trace,
    [setup_environment] returns from the same trace, with the same
    commands run: the mapping with the one key [ANTHROPIC_API_KEY] bound
    to that value when it is present, and the empty mapping when it is
    [None]. *)
Theorem C7_setup_environment_mirrors_key
    (account : option string) (t t' : trace) (v : pyval) :
  get_anthropic_api_key t = (Returns v, t') ->
  (v <> PyNone ->
     setup_environment account t = (Returns {[ override_key := v ]}, t')) /\
  (v = PyNone ->
     setup_environment account t = (Returns ∅, t')).
Proof.
  intros Hrun. unfold TokenManager.setup_environment.
  rewrite run_bind, Hrun. fold override_key.
  destruct (get_anthropic_api_key_truthy _ _ _ Hrun) as [-> | Hv].
  - split; [congruence | reflexivity].
  - rewrite Hv. split; [reflexivity|].
    intros ->. discriminate.
Qed.

(** Every command of a resolution is a query of one of the three stores,
    the third one always for no account. *)
Lemma resolve_queries (account : option string) (q : list string) :
  In q (snd (resolve security json_loads account)) ->
  q = query first_store account \/ q = query second_store account \/
  q = query third_store None.
Proof.
  unfold resolve.
  destruct (is_api_key _); [|destruct (second_stage _ _) as [[c|c]|e]];
    simpl; intuition.
Qed.

(** C10. [setup_environment] ignores its account argument: for any two
    accounts it returns the same mapping and runs the same commands under
    the same environment and keychain; whatever account it is given, every
    command it runs is a query made for no account. *)
Theorem C10_setup_environment_ignores_account
    (a1 a2 : option string) (t : trace) :
  setup_environment a1 t = setup_environment a2 t /\
  exists queries,
    snd (setup_environment a1 t) = t ++ queries /\
    forall q, In q queries -> exists service, q = query service None.
Proof.
  split; [reflexivity|].
  unfold TokenManager.setup_environment. rewrite run_bind.
  destruct (opt_truthy (environ !! override_key)) eqn:H.
  - exists []. split; [|intros q []].
    unfold TokenManager.get_anthropic_api_key. fold override_key. rewrite H.
    simpl. destruct (environ !! override_key) as [v|]; [|discriminate].
    simpl in *. rewrite H, app_nil_r. reflexivity.
  - exists (snd (resolve security json_loads None)). split.
    + rewrite (get_anthropic_api_key_delegates t H), get_claude_credentials_run.
      destruct (fst (resolve security json_loads None)) as [c|e]; [|reflexivity].
      destruct (py_truthy (api_key c)); reflexivity.
    + intros q Hq. apply resolve_queries in Hq as [-> | [-> | ->]]; eauto.
Qed.

End Override.

(** ** The three-store resolution *)

Section Stores.

Variable environ : gmap string string.
Variable security : list string -> outcome CompletedProcess.
Variable json_loads : string -> outcome pyval.

Local Abbreviation get_credentials :=
  (TokenManager.get_claude_credentials security json_loads).
Local Abbreviation get_anthropic_api_key :=
  (TokenManager.get_anthropic_api_key environ security json_loads).
Local Abbreviation extract :=
  (TokenManager._extract_api_key_from_mcp_credentials json_loads).
Local Abbreviation held := (stored security).

(** C4. If the first store holds a string that starts with [sk-ant-],
    [get_claude_credentials] returns the bundle whose primary credential
    is that exact string and whose other fields are unset, and the only
    command it runs is the query of the first store: the second and the
    third store are not queried. *)
Theorem C4_first_store_short_circuits
    (account : option string) (t : trace) (k : string) :
  held first_store account = Some k ->
  startswith k "sk-ant-" = true ->
  get_credentials account t =
  (Returns {| api_key := PyStr k; mcp_oauth_tokens := PyNone; session_token := PyNone |},
   t ++ [query first_store account]).
Proof.
  intros Hk Hp. rewrite get_claude_credentials_run. unfold resolve.
  rewrite Hk. simpl is_api_key. rewrite Hp.
  destruct k; [discriminate|]. reflexivity.
Qed.

(** C5. If the first store holds no string of the credential shape and
    the second store holds a non-empty payload that decodes to a JSON
    object with a credential (a true value in the top-level field, or,
    without a top-level field, in the field under the provider
    sub-object), [get_claude_credentials] returns the bundle with that
    value as primary credential and with the [mcpOAuth] member of the
    object (the empty object when there is none) as auxiliary token sets;
    it runs the queries of the first and the second store only. *)
Theorem C5_second_store_extracts
    (account : option string) (t : trace) (payload : string)
    (d : gmap string pyval) (v : pyval) :
  is_api_key (held first_store account) = false ->
  held second_store account = Some payload ->
  payload <> EmptyString ->
  json_loads payload = Returns (PyDict d) ->
  d !! "apiKey" = Some v \/ (d !! "apiKey" = None /\ nested_key d = Some v) ->
  py_truthy v = true ->
  get_credentials account t =
  (Returns {| api_key := v;
              mcp_oauth_tokens := default (PyDict ∅) (d !! "mcpOAuth");
              session_token := PyNone |},
   t ++ [query first_store account; query second_store account]).
Proof.
  intros H1 H2 Hne Hd Hv Ht. rewrite get_claude_credentials_run. unfold resolve.
  rewrite H1, H2. unfold second_stage. rewrite Hd.
  destruct payload; [congruence|]. simpl str_truthy. cbv iota.
  assert (He : extract_from d = Returns v).
  { unfold extract_from. destruct Hv as [-> | [-> ->]]; reflexivity. }
  rewrite He. simpl. rewrite Ht. reflexivity.
Qed.

(** What escapes the resolution, continued. An exception of the decoder
    other than [JSONDecodeError] on a non-empty payload of the second store
    leaves [get_claude_credentials] after the second query: the handler of
    the block names [JSONDecodeError] only. *)
Lemma decoder_exception_escapes
    (account : option string) (t : trace) (payload : string) (e : exn) :
  is_api_key (held first_store account) = false ->
  held second_store account = Some payload ->
  payload <> EmptyString ->
  json_loads payload = Raises e ->
  e <> JSONDecodeError ->
  get_credentials account t =
  (Raises e, t ++ [query first_store account; query second_store account]).
Proof.
  intros H1 H2 Hne Hd He. rewrite get_claude_credentials_run. unfold resolve.
  rewrite H1, H2. unfold second_stage. rewrite Hd.
  destruct payload; [congruence|]. simpl str_truthy. cbv iota.
  destruct e; try reflexivity. congruence.
Qed.

(** X15. If the first store holds no string of the credential shape and
    [json.loads] raises [JSONDecodeError] on the payload of the second
    store, [get_claude_credentials] raises nothing: it goes on to query
    the third store and returns a bundle whose auxiliary token sets (and
    primary credential) are unset; the session token is what the third
    store holds, if that is not empty. *)
Theorem X15_decode_error_is_skipped
    (account : option string) (t : trace) (payload : string) :
  is_api_key (held first_store account) = false ->
  held second_store account = Some payload ->
  json_loads payload = Raises JSONDecodeError ->
  get_credentials account t =
  (Returns {| api_key := PyNone;
              mcp_oauth_tokens := PyNone;
              session_token :=
                if opt_truthy (held third_store None)
                then of_opt_str (held third_store None) else PyNone |},
   t ++ [query first_store account; query second_store account;
         query third_store None]).
Proof.
  intros H1 H2 Hd. rewrite get_claude_credentials_run. unfold resolve.
  rewrite H1, H2. unfold second_stage. rewrite Hd.
  assert (Hs : (if str_truthy payload
                then Returns (Next no_credentials)
                else Returns (Next no_credentials)) = Returns (Next no_credentials))
    by (destruct (str_truthy payload); reflexivity).
  rewrite Hs. unfold third_stage. simpl.
  rewrite andb_true_r.
  destruct (opt_truthy (held third_store None)); reflexivity.
Qed.

(** C8. In a bundle that [get_claude_credentials] returns, a primary
    credential that is set was set by the first store, and then only the
    first store was queried, or by the second, and then only the first
    two were; in both cases the session token is unset. A session token
    that is set comes with an unset primary credential, after all three
    stores were queried. The two fields are never both set. *)
Theorem C8_resolution_stops_at_credential
    (account : option string) (t t' : trace) (c : ClaudeCredentials) :
  get_credentials account t = (Returns c, t') ->
  (api_key c <> PyNone ->
     session_token c = PyNone /\
     ((is_api_key (held first_store account) = true /\
       api_key c = of_opt_str (held first_store account) /\
       t' = t ++ [query first_store account]) \/
      (is_api_key (held first_store account) = false /\
       t' = t ++ [query first_store account; query second_store account]))) /\
  (session_token c <> PyNone ->
     api_key c = PyNone /\
     t' = t ++ [query first_store account; query second_store account;
                query third_store None]).
Proof.
  rewrite get_claude_credentials_run. unfold resolve.
  destruct (is_api_key (held first_store account)) eqn:H1.
  - simpl. intros [= <- <-]. simpl. split.
    + intros _. split; [reflexivity|]. left. auto.
    + congruence.
  - destruct (second_stage _ _) as [[c'|c']|e] eqn:H2; simpl; [| |discriminate].
    + intros [= <- <-].
      destruct (second_stage_Return _ _ _ H2) as [_ Hs]. split.
      * intros _. split; [exact Hs|]. right. auto.
      * congruence.
    + intros [= <- <-].
      destruct (second_stage_Next _ _ _ H2) as [Hk _]. split.
      * rewrite third_stage_api_key. congruence.
      * intros _. rewrite third_stage_api_key. auto.
Qed.

(** C9. If the keychain holds nothing in any of the three stores,
    [get_claude_credentials] returns the bundle with all three fields
    unset, after querying the three stores; and with the override unset,
    [get_anthropic_api_key] returns [None]. *)
Theorem C9_all_stores_absent (account : option string) (t : trace) :
  (forall a, held first_store a = None) ->
  (forall a, held second_store a = None) ->
  held third_store None = None ->
  get_credentials account t =
  (Returns {| api_key := PyNone; mcp_oauth_tokens := PyNone; session_token := PyNone |},
   t ++ [query first_store account; query second_store account;
         query third_store None]) /\
  (environ !! override_key = None ->
   get_anthropic_api_key t =
   (Returns PyNone,
    t ++ [query first_store None; query second_store None; query third_store None])).
Proof.
  intros H1 H2 H3.
  assert (Hrun : forall a t0,
    get_credentials a t0 =
    (Returns no_credentials,
     t0 ++ [query first_store a; query second_store a; query third_store None])).
  { intros a t0. rewrite get_claude_credentials_run. unfold resolve.
    rewrite H1, H2. simpl. unfold third_stage. rewrite H3. reflexivity. }
  split; [apply Hrun|].
  intros He.
  rewrite (get_anthropic_api_key_delegates environ security json_loads t)
    by (rewrite He; reflexivity).
  rewrite Hrun. reflexivity.
Qed.

(** What escapes the resolution. A payload of the second store that
    decodes to anything but a JSON object makes [get_claude_credentials]
    raise [AttributeError] after the second query, whatever the decoder. *)
Lemma non_object_payload_raises
    (account : option string) (t : trace) (payload : string) (v : pyval) :
  is_api_key (held first_store account) = false ->
  held second_store account = Some payload ->
  payload <> EmptyString ->
  json_loads payload = Returns v ->
  is_dict v = false ->
  get_credentials account t =
  (Raises AttributeError,
   t ++ [query first_store account; query second_store account]).
Proof.
  intros H1 H2 Hne Hv Hd. rewrite get_claude_credentials_run. unfold resolve.
  rewrite H1, H2. unfold second_stage. rewrite Hv.
  destruct payload; [congruence|]. simpl str_truthy. cbv iota.
  destruct v; try reflexivity. discriminate.
Qed.

(** A JSON object without credential field whose [mcpOAuth] member has no
    length makes it raise [TypeError]. *)
Lemma unsized_tokens_raise
    (account : option string) (t : trace) (payload : string)
    (d : gmap string pyval) (tokens : pyval) :
  is_api_key (held first_store account) = false ->
  held second_store account = Some payload ->
  payload <> EmptyString ->
  json_loads payload = Returns (PyDict d) ->
  d !! "apiKey" = None -> nested_key d = None ->
  d !! "mcpOAuth" = Some tokens -> py_len tokens = Raises TypeError ->
  get_credentials account t =
  (Raises TypeError,
   t ++ [query first_store account; query second_store account]).
Proof.
  intros H1 H2 Hne Hv Hk Hn Hm Hl. rewrite get_claude_credentials_run. unfold resolve.
  rewrite H1, H2. unfold second_stage. rewrite Hv.
  destruct payload; [congruence|]. simpl str_truthy. cbv iota.
  unfold extract_from. rewrite Hk, Hn, Hm, Hl. reflexivity.
Qed.

(** C3 (as the code has it). On a decoded JSON object the extraction
    checks, in this order, the top-level [apiKey] field, the [apiKey]
    field of the [anthropic] member when that is an object, and the
    [mcpOAuth] member, which never yields a credential. The first field
    that is present decides: its value is returned as it is, empty or
    not. So when the top-level field is present with a false value (an
    empty string, say), whatever the nested field holds,
    [get_claude_credentials] sets no primary credential and goes on to
    the third store. *)
Theorem C3_first_present_field_wins
    (doc : string) (d : gmap string pyval) (t : trace) :
  json_loads doc = Returns (PyDict d) ->
  (forall v, d !! "apiKey" = Some v -> extract doc t = (Returns v, t)) /\
  (forall v, d !! "apiKey" = None -> nested_key d = Some v ->
     extract doc t = (Returns v, t)) /\
  (d !! "apiKey" = None -> nested_key d = None ->
     forall v t', extract doc t = (Returns v, t') -> v = PyNone /\ t' = t) /\
  (forall v account,
     d !! "apiKey" = Some v -> py_truthy v = false ->
     is_api_key (held first_store account) = false ->
     held second_store account = Some doc -> doc <> EmptyString ->
     get_credentials account t =
     (Returns {| api_key := PyNone;
                 mcp_oauth_tokens := default (PyDict ∅) (d !! "mcpOAuth");
                 session_token :=
                   if opt_truthy (held third_store None)
                   then of_opt_str (held third_store None) else PyNone |},
      t ++ [query first_store account; query second_store account;
            query third_store None])).
Proof.
  intros Hd. rewrite (extract_dict _ _ _ t Hd). unfold extract_from.
  split; [|split; [|split]].
  - intros v ->. reflexivity.
  - intros v -> ->. reflexivity.
  - intros -> -> v t'.
    destruct (d !! "mcpOAuth") as [[]|]; simpl; intros [= <- <-]; auto.
  - intros v account Hv Hf H1 H2 Hne.
    rewrite get_claude_credentials_run. unfold resolve.
    rewrite H1, H2. unfold second_stage. rewrite Hd.
    destruct doc; [congruence|]. simpl str_truthy. cbv iota.
    unfold extract_from. rewrite Hv. simpl. rewrite Hf.
    unfold third_stage. simpl. rewrite andb_true_r.
    destruct (opt_truthy (held third_store None)); reflexivity.
Qed.

End Stores.

(** ** The scenarios, run *)

Local Abbreviation run_credentials entries account :=
  (TokenManager.get_claude_credentials (keychain entries) json.loads account []).

(** C1 (failing inputs). With a second store whose payload is valid JSON
    but not an object (here the empty array), [get_claude_credentials]
    raises [AttributeError] after the second query, and
    [get_anthropic_api_key] and [setup_environment] raise it too. With an
    object whose [mcpOAuth] member has no length (here a number) it raises
    [TypeError]. *)
Theorem C1_non_object_payload_raises :
  run_credentials [(second_store, "[]")] None =
    (Raises AttributeError, [query first_store None; query second_store None]) /\
  TokenManager.get_anthropic_api_key ∅ (keychain [(second_store, "[]")]) json.loads [] =
    (Raises AttributeError, [query first_store None; query second_store None]) /\
  TokenManager.setup_environment ∅ (keychain [(second_store, "[]")]) json.loads None [] =
    (Raises AttributeError, [query first_store None; query second_store None]) /\
  run_credentials [(second_store, dq "{'mcpOAuth': 5}")] None =
    (Raises TypeError, [query first_store None; query second_store None]).
Proof. repeat split; vm_compute; reflexivity. Qed.

Lemma C2_override_witness :
  TokenManager.get_anthropic_api_key
    {[ override_key := "sk-ant-env" ]} (keychain [(first_store, "sk-ant-abc")]) json.loads [] =
    (Returns (PyStr "sk-ant-env"), []) /\
  TokenManager.get_anthropic_api_key
    {[ override_key := EmptyString ]} (keychain [(first_store, "sk-ant-abc")]) json.loads [] =
    (Returns (PyStr "sk-ant-abc"), [query first_store None]).
Proof.
  split.
  - apply (proj1 (C2_override_precedence
             {[ override_key := "sk-ant-env" ]} (keychain [(first_store, "sk-ant-abc")])
             json.loads [])); [vm_compute; reflexivity | discriminate].
  - rewrite (proj2 (C2_override_precedence
               {[ override_key := EmptyString ]} (keychain [(first_store, "sk-ant-abc")])
               json.loads [])); [vm_compute; reflexivity | right; vm_compute; reflexivity].
Defined.

(** The document of the counterexample as the decoder reads it. *)
Lemma empty_top_doc_decodes : json.loads empty_top_doc = Returns (PyDict empty_top_object).
Proof. vm_compute. reflexivity. Qed.

(** C3 (counterexample). For the document with an empty top-level field
    and a non-empty nested one, the extraction returns the empty string,
    not the nested value, and the resolution sets no primary credential. *)
Lemma C3_counterexample :
  TokenManager._extract_api_key_from_mcp_credentials json.loads empty_top_doc [] =
    (Returns (PyStr EmptyString), []) /\
  PyStr EmptyString <> PyStr "sk-ant-nested" /\
  run_credentials [(second_store, empty_top_doc)] None =
    (Returns {| api_key := PyNone; mcp_oauth_tokens := PyDict ∅; session_token := PyNone |},
     [query first_store None; query second_store None; query third_store None]).
Proof. repeat split; try discriminate; vm_compute; reflexivity. Qed.

Lemma C3_witness :
  TokenManager._extract_api_key_from_mcp_credentials json.loads empty_top_doc [] =
    (Returns (PyStr EmptyString), []).
Proof.
  apply (proj1 (C3_first_present_field_wins
           (keychain [(second_store, empty_top_doc)]) json.loads
           empty_top_doc empty_top_object [] empty_top_doc_decodes)).
  vm_compute. reflexivity.
Defined.

Lemma C4_witness :
  run_credentials [(first_store, "sk-ant-abc")] None =
    (Returns {| api_key := PyStr "sk-ant-abc"; mcp_oauth_tokens := PyNone;
                session_token := PyNone |},
     [query first_store None]).
Proof.
  apply (C4_first_store_short_circuits
           (keychain [(first_store, "sk-ant-abc")]) json.loads None [] "sk-ant-abc");
    vm_compute; reflexivity.
Defined.

Lemma C5_witness :
  run_credentials [(second_store, scenario_doc)] None =
    (Returns {| api_key := PyStr "sk-ant-xyz123";
                mcp_oauth_tokens :=
                  PyDict {[ "svc1" := PyDict {[ "accessToken" := PyStr "tok" ]} ]};
                session_token := PyNone |},
     [query first_store None; query second_store None]).
Proof.
  apply (C5_second_store_extracts
           (keychain [(second_store, scenario_doc)]) json.loads None []
           scenario_doc scenario_object (PyStr "sk-ant-xyz123")).
  - vm_compute. reflexivity.
  - vm_compute. reflexivity.
  - discriminate.
  - vm_compute. reflexivity.
  - right. split; vm_compute; reflexivity.
  - reflexivity.
Defined.

(** The long-number payload is not JSON, and the decoder fails on it with
    [ValueError]. *)
Lemma long_number_doc_fails : json.loads long_number_doc = Raises ValueError.
Proof. vm_compute. reflexivity. Qed.

(** C6 (failing input). The payload of the second store is an opening
    bracket followed by an integer literal of 4301 digits: it does not
    parse as JSON, yet [json.loads] raises [ValueError] for it and not
    [JSONDecodeError]. [get_claude_credentials] then raises [ValueError]
    after the second query, the third store is never queried, and
    [get_anthropic_api_key] raises it too. *)
Theorem C6_unparseable_payload_raises :
  json.loads long_number_doc = Raises ValueError /\
  run_credentials [(second_store, long_number_doc); (third_store, "c2FmZQ==")] None =
    (Raises ValueError, [query first_store None; query second_store None]) /\
  TokenManager.get_anthropic_api_key ∅
    (keychain [(second_store, long_number_doc); (third_store, "c2FmZQ==")])
    json.loads [] =
    (Raises ValueError, [query first_store None; query second_store None]).
Proof. repeat split; vm_compute; reflexivity. Qed.

Lemma X15_witness :
  run_credentials [(second_store, "{not json"); (third_store, "c2FmZQ==")] None =
    (Returns {| api_key := PyNone; mcp_oauth_tokens := PyNone;
                session_token := PyStr "c2FmZQ==" |},
     [query first_store None; query second_store None; query third_store None]).
Proof.
  apply (X15_decode_error_is_skipped
           (keychain [(second_store, "{not json"); (third_store, "c2FmZQ==")])
           json.loads None [] "{not json");
    vm_compute; reflexivity.
Defined.

Lemma C7_witness :
  TokenManager.setup_environment ∅ (keychain [(first_store, "sk-ant-abc")]) json.loads
    (Some "alice") [] =
    (Returns {[ override_key := PyStr "sk-ant-abc" ]}, [query first_store None]) /\
  TokenManager.setup_environment ∅ (keychain []) json.loads (Some "alice") [] =
    (Returns ∅, [query first_store None; query second_store None; query third_store None]).
Proof.
  assert (H1 :
    TokenManager.get_anthropic_api_key ∅ (keychain [(first_store, "sk-ant-abc")])
      json.loads [] = (Returns (PyStr "sk-ant-abc"), [query first_store None]))
    by (vm_compute; reflexivity).
  assert (H2 :
    TokenManager.get_anthropic_api_key ∅ (keychain []) json.loads [] =
    (Returns PyNone,
     [query first_store None; query second_store None; query third_store None]))
    by (vm_compute; reflexivity).
  split.
  - apply (proj1 (C7_setup_environment_mirrors_key _ _ _ (Some "alice") _ _ _ H1)).
    discriminate.
  - apply (proj2 (C7_setup_environment_mirrors_key _ _ _ (Some "alice") _ _ _ H2)).
    reflexivity.
Defined.

Lemma C8_witness :
  session_token
    {| api_key := PyStr "sk-ant-xyz123";
       mcp_oauth_tokens := PyDict {[ "svc1" := PyDict {[ "accessToken" := PyStr "tok" ]} ]};
       session_token := PyNone |} = PyNone /\
  [query first_store None; query second_store None] =
  [] ++ [query first_store None; query second_store None].
Proof.
  assert (Hrun :
    run_credentials [(second_store, scenario_doc); (third_store, "c2FmZQ==")] None =
    (Returns {| api_key := PyStr "sk-ant-xyz123";
                mcp_oauth_tokens :=
                  PyDict {[ "svc1" := PyDict {[ "accessToken" := PyStr "tok" ]} ]};
                session_token := PyNone |},
     [query first_store None; query second_store None]))
    by (vm_compute; reflexivity).
  destruct (proj1 (C8_resolution_stops_at_credential _ _ _ _ _ _ Hrun))
    as [Hs [[Hf _] | [_ Ht]]]; [discriminate | discriminate |].
  split; [exact Hs | exact Ht].
Defined.

(** On a host where [security] cannot be run, the accessor maps the
    failure to an absent value and the resolution returns the empty
    bundle. *)
Example resolution_without_keychain :
  TokenManager.get_claude_credentials no_keychain json.loads (Some "alice") [] =
  (Returns no_credentials,
   [query first_store (Some "alice"); query second_store (Some "alice");
    query third_store None]).
Proof. vm_compute. reflexivity. Qed.

Lemma C9_witness :
  run_credentials [] None =
    (Returns {| api_key := PyNone; mcp_oauth_tokens := PyNone; session_token := PyNone |},
     [query first_store None; query second_store None; query third_store None]) /\
  TokenManager.get_anthropic_api_key ∅ (keychain []) json.loads [] =
    (Returns PyNone,
     [query first_store None; query second_store None; query third_store None]).
Proof.
  destruct (C9_all_stores_absent ∅ (keychain []) json.loads None []) as [H1 H2];
    [intros a; destruct a as [a|]; [destruct a|]; reflexivity
    |intros a; destruct a as [a|]; [destruct a|]; reflexivity
    |reflexivity|].
  split; [exact H1 | apply H2; reflexivity].
Defined.

(** * Further properties of the accessor, the extraction and the resolution *)

(** ** Reversal and stripping of strings *)

Section Strings.

Lemma string_app_cons (a : ascii) (s t : string) :
  String.app (String a s) t = String a (String.app s t).
Proof. reflexivity. Qed.

Lemma string_app_nil_l (t : string) : String.app EmptyString t = t.
Proof. reflexivity. Qed.

Lemma string_app_nil_r (s : string) : String.app s EmptyString = s.
Proof.
  induction s as [|a s IH]; [reflexivity|].
  rewrite string_app_cons, IH. reflexivity.
Qed.

Lemma string_app_assoc (s1 s2 s3 : string) :
  String.app (String.app s1 s2) s3 = String.app s1 (String.app s2 s3).
Proof.
  induction s1 as [|a s1 IH]; [reflexivity|].
  rewrite !string_app_cons, IH. reflexivity.
Qed.

Lemma string_app_length (s1 s2 : string) :
  String.length (String.app s1 s2) = (String.length s1 + String.length s2)%nat.
Proof.
  induction s1 as [|a s1 IH]; [reflexivity|].
  rewrite string_app_cons. simpl. rewrite IH. reflexivity.
Qed.

Lemma rev_app_spec (s1 s2 : string) :
  String.rev_app s1 s2 = String.app (String.rev s1) s2.
Proof.
  unfold String.rev. revert s2.
  induction s1 as [|a s1 IH]; intros s2; simpl; [reflexivity|].
  rewrite (IH (String a s2)), (IH (String a EmptyString)), string_app_assoc.
  reflexivity.
Qed.

Lemma rev_app_rev_app (s1 s2 s3 : string) :
  String.rev_app (String.rev_app s1 s2) s3 = String.rev_app s2 (String.app s1 s3).
Proof.
  revert s2. induction s1 as [|a s1 IH]; intros s2; simpl; [reflexivity|].
  rewrite IH. reflexivity.
Qed.

Lemma string_rev_involutive (s : string) : String.rev (String.rev s) = s.
Proof.
  unfold String.rev. rewrite rev_app_rev_app. simpl. apply string_app_nil_r.
Qed.

Lemma string_rev_length (s : string) : String.length (String.rev s) = String.length s.
Proof.
  unfold String.rev.
  assert (H : forall s1 s2,
    String.length (String.rev_app s1 s2) = (String.length s1 + String.length s2)%nat).
  { induction s1 as [|a s1 IH]; intros s2; simpl; [reflexivity|].
    rewrite IH. simpl. lia. }
  rewrite H. simpl. lia.
Qed.

Lemma string_rev_app (s1 s2 : string) :
  String.rev (String.app s1 s2) = String.app (String.rev s2) (String.rev s1).
Proof.
  induction s1 as [|a s1 IH].
  - rewrite string_app_nil_l. symmetry. apply string_app_nil_r.
  - rewrite string_app_cons. unfold String.rev at 1 3. simpl.
    rewrite !rev_app_spec, IH. apply string_app_assoc.
Qed.

Lemma strip_prefix_app (w s r : string) :
  strip_prefix w s = Some r -> s = String.app w r.
Proof.
  revert s. induction w as [|a w IH]; intros s; simpl.
  - intros [= <-]. reflexivity.
  - destruct s as [|b s]; [discriminate|].
    destruct (Ascii.eqb_spec a b) as [<-|]; [|discriminate].
    intros H. rewrite (IH _ H). reflexivity.
Qed.

Lemma strip_prefix_extend (w s q : string) :
  strip_prefix w (String.app s q) = None -> strip_prefix w s = None.
Proof.
  revert s. induction w as [|a w IH]; intros s.
  - simpl. discriminate.
  - destruct s as [|b s]; [intros _; reflexivity|].
    rewrite string_app_cons. simpl.
    destruct (Ascii.eqb a b); [apply IH | reflexivity].
Qed.

Lemma strip_prefix_None (w s : string) :
  strip_prefix w s = None -> String.prefix w s = false.
Proof.
  revert s. induction w as [|a w IH]; intros [|b s]; simpl; try congruence.
  destruct (Ascii.eqb_spec a b) as [<-|Hne].
  - intros H. rewrite (IH _ H). destruct (ascii_dec a a); reflexivity.
  - intros _. destruct (ascii_dec a b); [contradiction | reflexivity].
Qed.

Lemma drop_one_None (ws : list string) (s : string) :
  drop_one ws s = None -> forall w, In w ws -> strip_prefix w s = None.
Proof.
  unfold drop_one. induction ws as [|w0 ws IH]; simpl; [tauto|].
  destruct (strip_prefix w0 s) eqn:H0; simpl; [discriminate|].
  intros H w [<- | Hin]; [exact H0 | apply IH; assumption].
Qed.

Lemma drop_one_Some (ws : list string) (s s' : string) :
  drop_one ws s = Some s' -> exists w, In w ws /\ s = String.app w s'.
Proof.
  unfold drop_one. induction ws as [|w0 ws IH]; simpl; [discriminate|].
  destruct (strip_prefix w0 s) as [r|] eqn:H0; simpl.
  - intros [= <-]. exists w0. split; [left; reflexivity|].
    apply strip_prefix_app. exact H0.
  - intros H. destruct (IH H) as (w & Hin & Hw). exists w. auto.
Qed.

(** Stripping leaves a suffix that starts with none of the characters. *)
Lemma lstrip_fuel_spec (ws : list string) (n : nat) (s : string) :
  (forall w, In w ws -> w <> EmptyString) ->
  (String.length s <= n)%nat ->
  drop_one ws (lstrip_fuel ws n s) = None /\
  exists p, s = String.app p (lstrip_fuel ws n s).
Proof.
  intros Hne. revert s. induction n as [|n IH]; intros s Hn; simpl.
  - destruct s; [|simpl in Hn; lia].
    split; [|exists EmptyString; reflexivity].
    destruct (drop_one ws EmptyString) as [s'|] eqn:Hd; [|reflexivity].
    apply drop_one_Some in Hd as (w & Hin & Hw).
    destruct w; [destruct (Hne _ Hin eq_refl) | discriminate].
  - destruct (drop_one ws s) as [s'|] eqn:Hd.
    + apply drop_one_Some in Hd as (w & Hin & ->).
      assert (Hl : (String.length s' <= n)%nat).
      { rewrite string_app_length in Hn.
        destruct w; [destruct (Hne _ Hin eq_refl)|]. simpl in Hn. lia. }
      destruct (IH s' Hl) as [H1 [p Hp]]. split; [exact H1|].
      exists (String.app w p). rewrite string_app_assoc, <- Hp. reflexivity.
    + split; [exact Hd | exists EmptyString; reflexivity].
Qed.

Lemma py_whitespace_nonempty (w : string) : In w py_whitespace -> w <> EmptyString.
Proof.
  intros Hin ->. revert Hin. vm_compute. intuition discriminate.
Qed.

Lemma py_whitespace_rev_nonempty (w : string) :
  In w (map String.rev py_whitespace) -> w <> EmptyString.
Proof.
  intros Hin ->. revert Hin. vm_compute. intuition discriminate.
Qed.

(** [strip] leaves a string that neither starts nor ends with one of the
    characters it removes. *)
Lemma py_strip_stripped (s : string) (w : string) :
  In w py_whitespace ->
  startswith (py_strip s) w = false /\ endswith (py_strip s) w = false.
Proof.
  intros Hin. unfold py_strip, startswith, endswith.
  destruct (lstrip_fuel_spec py_whitespace (String.length s) s
              py_whitespace_nonempty (le_n _)) as [Hl _].
  fold (py_lstrip s) in Hl. set (l := py_lstrip s) in *.
  destruct (lstrip_fuel_spec (map String.rev py_whitespace) (String.length l)
              (String.rev l) py_whitespace_rev_nonempty
              ltac:(rewrite string_rev_length; lia)) as [Hr [p Hp]].
  split.
  - apply strip_prefix_None.
    apply (strip_prefix_extend w (py_rstrip l) (String.rev p)).
    assert (Hl' : l = String.app (py_rstrip l) (String.rev p)).
    { unfold py_rstrip. rewrite <- string_rev_app, <- Hp.
      symmetry. apply string_rev_involutive. }
    rewrite <- Hl'. apply (drop_one_None _ _ Hl). exact Hin.
  - apply strip_prefix_None. unfold py_rstrip. rewrite string_rev_involutive.
    apply (drop_one_None _ _ Hr). apply in_map. exact Hin.
Qed.

End Strings.

(** ** The keychain accessor *)

Section AccessorProperties.

Variable security : list string -> outcome CompletedProcess.

Local Abbreviation get_keychain_password :=
  (TokenManager._get_keychain_password security).

(** X1. [_get_keychain_password] never raises and runs exactly one command,
    the [security] query of the service (with [-a account] only for a
    non-empty account). Its value is absent when running the command
    raises, absent when the command exits with a non-zero code, and the
    stripped output when it exits with 0. *)
Theorem X1_accessor_never_raises
    (service : string) (account : option string) (t : trace) :
  exists o,
    get_keychain_password service account t =
      (Returns o, t ++ [query service account]) /\
    (forall e, security (query service account) = Raises e -> o = None) /\
    (forall r, security (query service account) = Returns r ->
       returncode r <> 0 -> o = None) /\
    (forall r, security (query service account) = Returns r ->
       returncode r = 0 -> o = Some (py_strip (stdout r))).
Proof.
  exists (stored security service account).
  split; [apply get_keychain_password_run|].
  unfold stored. repeat split.
  - intros e ->. reflexivity.
  - intros r -> Hne. destruct (Z.eqb_spec (returncode r) 0); [contradiction | reflexivity].
  - intros r -> ->. reflexivity.
Qed.

(** X2. A secret returned by [_get_keychain_password] neither starts nor
    ends with a white-space character: the newline that [security] prints
    after the secret, and any blank around it, is gone. *)
Theorem X2_accessor_result_stripped
    (service : string) (account : option string) (t t' : trace) (secret w : string) :
  get_keychain_password service account t = (Returns (Some secret), t') ->
  In w py_whitespace ->
  startswith secret w = false /\ endswith secret w = false.
Proof.
  rewrite get_keychain_password_run. unfold stored.
  destruct (security _) as [r|e]; [|discriminate].
  destruct (returncode r =? 0); [|discriminate].
  intros [= <- _]. apply py_strip_stripped.
Qed.

End AccessorProperties.

Lemma X2_witness :
  startswith "sk-ant-abc" " " = false /\ endswith "sk-ant-abc" " " = false.
Proof.
  apply (X2_accessor_result_stripped
           (keychain [(first_store, "  sk-ant-abc ")]) first_store None []
           [query first_store None] "sk-ant-abc" " ").
  - vm_compute. reflexivity.
  - vm_compute. do 9 right. left. reflexivity.
Defined.

(** ** The structured extraction *)

Section ExtractionProperties.

Variable json_loads : string -> outcome pyval.

Local Abbreviation extract :=
  (TokenManager._extract_api_key_from_mcp_credentials json_loads).

(** X3. [_extract_api_key_from_mcp_credentials] runs no command and never
    raises [JSONDecodeError], whatever the document and the decoder. When
    [json.loads] raises [JSONDecodeError] on the document the extraction
    returns [None]; any other exception of [json.loads] (the [ValueError]
    of an overlong integer literal, a [RecursionError]) is not caught and
    leaves the extraction unchanged. *)
Theorem X3_extraction_catches_JSONDecodeError_only (doc : string) (t : trace) :
  snd (extract doc t) = t /\
  fst (extract doc t) <> Raises JSONDecodeError /\
  (json_loads doc = Raises JSONDecodeError -> extract doc t = (Returns PyNone, t)) /\
  (forall e, json_loads doc = Raises e -> e <> JSONDecodeError ->
     extract doc t = (Raises e, t)).
Proof.
  split; [apply extract_silent|]. split; [apply extract_not_JSONDecodeError|].
  split.
  - intros Hd. unfold TokenManager._extract_api_key_from_mcp_credentials, try_except.
    rewrite run_bind. unfold eval at 1. rewrite Hd. reflexivity.
  - intros e Hd He.
    unfold TokenManager._extract_api_key_from_mcp_credentials, try_except.
    rewrite run_bind. unfold eval at 1. rewrite Hd.
    destruct e; try reflexivity. congruence.
Qed.

(** X4. On a document that decodes to [null], a boolean or a number, the
    extraction raises [TypeError]: the membership test of the first rule
    is not defined on such a value. *)
Theorem X4_extraction_of_scalar_raises (doc : string) (v : pyval) (t : trace) :
  json_loads doc = Returns v ->
  is_scalar v = true ->
  extract doc t = (Raises TypeError, t).
Proof.
  intros Hd Hs. unfold TokenManager._extract_api_key_from_mcp_credentials, try_except.
  rewrite run_bind. unfold eval at 1. rewrite Hd.
  destruct v; try discriminate; reflexivity.
Qed.

(** X5. On a document that decodes to an array or a string, the extraction
    returns [None] when the value mentions none of [apiKey], [anthropic]
    and [mcpOAuth] (as an element, or as a substring), and raises
    [TypeError] when it mentions one of them: the field is then looked up
    by name in a value that has no fields. *)
Theorem X5_extraction_of_array_or_string (doc : string) (v : pyval) (t : trace) :
  json_loads doc = Returns v ->
  is_scalar v = false -> is_dict v = false ->
  extract doc t =
  (if mentions v "apiKey" || mentions v "anthropic" || mentions v "mcpOAuth"
   then Raises TypeError else Returns PyNone, t).
Proof.
  intros Hd Hs Hn. unfold TokenManager._extract_api_key_from_mcp_credentials, try_except.
  rewrite run_bind. unfold eval at 1. rewrite Hd.
  destruct v as [| | | |s|l|d]; try discriminate; clear Hs Hn;
    unfold mentions; rewrite run_bind; unfold eval at 1; simpl py_contains.
  - destruct (str_contains "apiKey" s); [reflexivity|].
    rewrite run_bind. unfold eval at 1. simpl py_contains.
    destruct (str_contains "anthropic" s); [reflexivity|].
    rewrite !run_bind. unfold TokenManager._log, eval. simpl.
    destruct (str_contains "mcpOAuth" s); reflexivity.
  - destruct (existsb (eq_str "apiKey") l); [reflexivity|].
    rewrite run_bind. unfold eval at 1. simpl py_contains.
    destruct (existsb (eq_str "anthropic") l); [reflexivity|].
    rewrite !run_bind. unfold TokenManager._log, eval. simpl.
    destruct (existsb (eq_str "mcpOAuth") l); reflexivity.
Qed.

End ExtractionProperties.

Lemma X3_witness :
  TokenManager._extract_api_key_from_mcp_credentials json.loads "{not json" [] =
    (Returns PyNone, []) /\
  TokenManager._extract_api_key_from_mcp_credentials json.loads long_number_doc [] =
    (Raises ValueError, []).
Proof.
  destruct (X3_extraction_catches_JSONDecodeError_only json.loads "{not json" [])
    as (_ & _ & H1 & _).
  destruct (X3_extraction_catches_JSONDecodeError_only json.loads long_number_doc [])
    as (_ & _ & _ & H2).
  split.
  - apply H1. vm_compute. reflexivity.
  - apply H2; [vm_compute; reflexivity | discriminate].
Defined.

Lemma X4_witness :
  TokenManager._extract_api_key_from_mcp_credentials json.loads "42" [] =
  (Raises TypeError, []).
Proof.
  apply (X4_extraction_of_scalar_raises json.loads "42" (PyInt 42) []);
    vm_compute; reflexivity.
Defined.

Lemma X5_witness :
  TokenManager._extract_api_key_from_mcp_credentials json.loads (dq "['mcpOAuth']") [] =
  (Raises TypeError, []) /\
  TokenManager._extract_api_key_from_mcp_credentials json.loads (dq "'no key here'") [] =
  (Returns PyNone, []).
Proof.
  split.
  - apply (X5_extraction_of_array_or_string json.loads (dq "['mcpOAuth']")
             (PyList [PyStr "mcpOAuth"]) []); vm_compute; reflexivity.
  - apply (X5_extraction_of_array_or_string json.loads (dq "'no key here'")
             (PyStr "no key here") []); vm_compute; reflexivity.
Defined.

(** ** The resolution *)

Section ResolutionProperties.

Variable environ : gmap string string.
Variable security : list string -> outcome CompletedProcess.
Variable json_loads : string -> outcome pyval.

Local Abbreviation get_credentials :=
  (TokenManager.get_claude_credentials security json_loads).
Local Abbreviation get_anthropic_api_key :=
  (TokenManager.get_anthropic_api_key environ security json_loads).
Local Abbreviation setup_environment :=
  (TokenManager.setup_environment environ security json_loads).
Local Abbreviation held := (stored security).

(** X6. Whatever the keychain holds, and whether it returns or raises,
    [get_claude_credentials] runs between one and three commands: an
    initial segment of the queries of the first store, the second store
    and the third store, in that order. The account is passed to the first
    two queries and never to the third. *)
Theorem X6_stores_queried_in_order (account : option string) (t : trace) :
  exists n, (1 <= n <= 3)%nat /\
    snd (get_credentials account t) = t ++ take n (store_queries account).
Proof.
  rewrite get_claude_credentials_run. unfold resolve, store_queries. simpl snd.
  destruct (is_api_key _); [exists 1%nat; split; [lia | reflexivity]|].
  destruct (second_stage _ _) as [[c|c]|e]; simpl.
  - exists 2%nat. split; [lia | reflexivity].
  - exists 3%nat. split; [lia | reflexivity].
  - exists 2%nat. split; [lia | reflexivity].
Qed.

(** X7. An exception leaves [get_claude_credentials] only after the query
    of the second store, never after the third, and only because of a
    non-empty payload of the second store: it is an exception of the
    decoder other than [JSONDecodeError], or [AttributeError] for a
    payload that decodes to something that is not an object, or
    [TypeError] for an object whose [mcpOAuth] member has no length. It is
    never [JSONDecodeError]. *)
Theorem X7_what_escapes
    (account : option string) (t t' : trace) (e : exn) :
  get_credentials account t = (Raises e, t') ->
  t' = t ++ [query first_store account; query second_store account] /\
  e <> JSONDecodeError /\
  exists payload,
    held second_store account = Some payload /\ payload <> EmptyString /\
    (json_loads payload = Raises e \/
     (e = AttributeError /\
      exists v, json_loads payload = Returns v /\ is_dict v = false) \/
     (e = TypeError /\
      exists d tokens,
        json_loads payload = Returns (PyDict d) /\
        d !! "mcpOAuth" = Some tokens /\ py_len tokens = Raises TypeError)).
Proof.
  rewrite get_claude_credentials_run. unfold resolve.
  destruct (is_api_key _); [discriminate|].
  destruct (second_stage _ _) as [[c|c]|e'] eqn:H2; simpl; try discriminate.
  intros [= -> <-]. split; [reflexivity|].
  unfold second_stage in H2.
  destruct (held second_store account) as [payload|]; [|discriminate].
  destruct (str_truthy payload) eqn:Hp; [|discriminate].
  assert (Hne : payload <> EmptyString) by (intros ->; discriminate).
  destruct (json_loads payload) as [v|e0] eqn:Hv.
  - destruct v as [| | | | | |d];
      try (injection H2 as <-; split; [discriminate|];
           exists payload; split; [reflexivity|]; split; [exact Hne|];
           right; left; split; [reflexivity|];
           eexists; split; [exact Hv | reflexivity]).
    destruct (extract_from d) as [k|e0] eqn:Hk; simpl in H2;
      [destruct (py_truthy k); discriminate|].
    injection H2 as <-. pose proof (extract_from_raises _ _ Hk) as ->.
    split; [discriminate|].
    exists payload. split; [reflexivity|]. split; [exact Hne|].
    right. right. split; [reflexivity|].
    unfold extract_from in Hk.
    destruct (d !! "apiKey"); [discriminate|].
    destruct (nested_key d); [discriminate|].
    destruct (d !! "mcpOAuth") as [tokens|] eqn:Hm; [|discriminate].
    exists d, tokens. split; [exact Hv|]. split; [exact Hm|].
    destruct (py_len tokens) as [n|e0] eqn:Hl; [discriminate|].
    simpl in Hk. congruence.
  - destruct e0; try discriminate; injection H2 as <-;
      (split; [discriminate|]); exists payload;
      (split; [reflexivity|]); (split; [exact Hne|]); left; exact Hv.
Qed.

(** X9. In a bundle that [get_claude_credentials] returns, a session token
    that is set is the non-empty secret of the third store for no account,
    and auxiliary token sets that are set are the [mcpOAuth] member (or,
    without one, the empty object) of the JSON object the second store's
    payload decodes to. *)
Theorem X9_field_provenance
    (account : option string) (t t' : trace) (c : ClaudeCredentials) :
  get_credentials account t = (Returns c, t') ->
  (session_token c = PyNone \/
   exists s, held third_store None = Some s /\ s <> EmptyString /\
             session_token c = PyStr s) /\
  (mcp_oauth_tokens c = PyNone \/
   exists payload d,
     held second_store account = Some payload /\
     json_loads payload = Returns (PyDict d) /\
     mcp_oauth_tokens c = default (PyDict ∅) (d !! "mcpOAuth")).
Proof.
  rewrite get_claude_credentials_run. unfold resolve.
  destruct (is_api_key _) eqn:H1.
  { simpl. intros [= <- _]. simpl. auto. }
  assert (Hmcp : forall c0,
    second_stage json_loads (held second_store account) = Returns (Return_ c0) \/
    second_stage json_loads (held second_store account) = Returns (Next c0) ->
    mcp_oauth_tokens c0 = PyNone \/
    exists payload d,
      held second_store account = Some payload /\
      json_loads payload = Returns (PyDict d) /\
      mcp_oauth_tokens c0 = default (PyDict ∅) (d !! "mcpOAuth")).
  { intros c0. unfold second_stage.
    destruct (held second_store account) as [payload|];
      [|intros [H|H]; [discriminate | injection H as <-; auto]].
    destruct (str_truthy payload);
      [|intros [H|H]; [discriminate | injection H as <-; auto]].
    destruct (json_loads payload) as [[| | | | | |d]|[]] eqn:Hv;
      try (intros [H|H]; discriminate);
      try (intros [H|H]; [discriminate | injection H as <-; auto]).
    destruct (extract_from d) as [k|e0]; simpl; [|intros [H|H]; discriminate].
    destruct (py_truthy k); intros [H|H]; try discriminate;
      injection H as <-; right; exists payload, d; auto. }
  destruct (second_stage _ _) as [[c'|c']|e] eqn:H2; simpl; [| |discriminate].
  - intros [= <- _]. split; [|apply Hmcp; auto].
    left. apply (second_stage_Return _ _ _ H2).
  - intros [= <- _]. split.
    + destruct (second_stage_Next _ _ _ H2) as [_ Hs].
      unfold third_stage.
      destruct (held third_store None) as [s|] eqn:H3; simpl; [|auto].
      destruct (str_truthy s && negb (py_truthy (api_key c'))) eqn:Hb; [|auto].
      right. exists s. apply andb_true_iff in Hb as [Hb _].
      split; [reflexivity|]. split; [intros ->; discriminate | reflexivity].
    + rewrite third_stage_mcp_oauth_tokens. apply Hmcp. auto.
Qed.

(** X10. When the second store's payload decodes to a JSON object without
    a credential field, its [mcpOAuth] member is still recorded (the empty
    object when there is none, provided a member that is there has a
    length): the bundle is returned after the third query without primary
    credential, with the token sets and with the third store's secret, if
    any, as session token. *)
Theorem X10_tokens_kept_without_credential
    (account : option string) (t : trace) (payload : string) (d : gmap string pyval) :
  is_api_key (held first_store account) = false ->
  held second_store account = Some payload ->
  payload <> EmptyString ->
  json_loads payload = Returns (PyDict d) ->
  d !! "apiKey" = None -> nested_key d = None ->
  (forall tokens, d !! "mcpOAuth" = Some tokens -> exists n, py_len tokens = Returns n) ->
  get_credentials account t =
  (Returns {| api_key := PyNone;
              mcp_oauth_tokens := default (PyDict ∅) (d !! "mcpOAuth");
              session_token :=
                if opt_truthy (held third_store None)
                then of_opt_str (held third_store None) else PyNone |},
   t ++ store_queries account).
Proof.
  intros H1 H2 Hne Hv Hk Hn Hl. rewrite get_claude_credentials_run. unfold resolve.
  rewrite H1, H2. unfold second_stage. rewrite Hv.
  destruct payload; [congruence|]. simpl str_truthy. cbv iota.
  assert (He : extract_from d = Returns PyNone).
  { unfold extract_from. rewrite Hk, Hn.
    destruct (d !! "mcpOAuth") as [tokens|]; [|reflexivity].
    destruct (Hl tokens eq_refl) as [n ->]. reflexivity. }
  rewrite He. simpl. unfold third_stage. simpl. rewrite andb_true_r.
  destruct (opt_truthy (held third_store None)); reflexivity.
Qed.

(** X11. [get_anthropic_api_key] returns [None] or a true value: it never
    hands an empty string (or any other false value) to its caller. *)
Theorem X11_key_is_none_or_true (t t' : trace) (v : pyval) :
  get_anthropic_api_key t = (Returns v, t') ->
  v <> PyStr EmptyString /\ (v = PyNone \/ py_truthy v = true).
Proof.
  intros Hrun.
  destruct (get_anthropic_api_key_truthy _ _ _ _ _ _ Hrun) as [-> | Hv].
  - split; [discriminate | auto].
  - split; [intros ->; discriminate | auto].
Qed.

End ResolutionProperties.

(** ** Two keychains compared, and the override fed back *)

Lemma is_api_key_present (o : option string) : is_api_key (present o) = is_api_key o.
Proof. destruct o as [[|a k]|]; reflexivity. Qed.

Lemma second_stage_present (json_loads : string -> outcome pyval) (o : option string) :
  second_stage json_loads (present o) = second_stage json_loads o.
Proof. destruct o as [[|a k]|]; reflexivity. Qed.

Lemma third_stage_held
    (s1 s2 : list string -> outcome CompletedProcess) (c : ClaudeCredentials) :
  present (stored s2 third_store None) = present (stored s1 third_store None) ->
  third_stage s2 c = third_stage s1 c.
Proof.
  unfold third_stage, present.
  destruct (stored s1 third_store None) as [[|a k]|],
           (stored s2 third_store None) as [[|a' k']|]; simpl; intros H;
    try reflexivity; try discriminate.
  injection H as -> ->. reflexivity.
Qed.

(** X8. An empty secret counts as no secret. If a second keychain holds,
    in each of the three stores, what the first one holds except that
    empty secrets are missing, [get_claude_credentials] returns the same
    bundle, or raises the same exception, on both. *)
Theorem X8_empty_secret_is_no_secret
    (s1 s2 : list string -> outcome CompletedProcess)
    (json_loads : string -> outcome pyval) (account : option string) (t : trace) :
  stored s2 first_store account = present (stored s1 first_store account) ->
  stored s2 second_store account = present (stored s1 second_store account) ->
  stored s2 third_store None = present (stored s1 third_store None) ->
  fst (TokenManager.get_claude_credentials s1 json_loads account t) =
  fst (TokenManager.get_claude_credentials s2 json_loads account t).
Proof.
  intros H1 H2 H3. rewrite !get_claude_credentials_run. simpl fst.
  unfold resolve.
  rewrite H1, H2, is_api_key_present, (second_stage_present json_loads).
  destruct (is_api_key (stored s1 first_store account)) eqn:Hk.
  - simpl. apply (is_api_key_Some json_loads) in Hk as (k & -> & Hk & _).
    unfold present. simpl. rewrite Hk. reflexivity.
  - destruct (second_stage _ _) as [[c|c]|e]; simpl; try reflexivity.
    rewrite (third_stage_held s1 s2); [reflexivity|].
    rewrite H3. unfold present.
    destruct (stored s1 third_store None) as [[|a k]|]; reflexivity.
Qed.

(** X13. A first store that holds no string starting with [sk-ant-] has no
    influence on the result: two keychains that agree on the second store
    (for the account) and the third (for no account), and whose first
    stores both lack such a string, give the same bundle or the same
    exception. Nothing of an unusable first secret reaches the bundle. *)
Theorem X13_unusable_first_store_is_ignored
    (s1 s2 : list string -> outcome CompletedProcess)
    (json_loads : string -> outcome pyval) (account : option string) (t : trace) :
  is_api_key (stored s1 first_store account) = false ->
  is_api_key (stored s2 first_store account) = false ->
  stored s1 second_store account = stored s2 second_store account ->
  stored s1 third_store None = stored s2 third_store None ->
  fst (TokenManager.get_claude_credentials s1 json_loads account t) =
  fst (TokenManager.get_claude_credentials s2 json_loads account t).
Proof.
  intros H1 H1' H2 H3. rewrite !get_claude_credentials_run. simpl fst.
  unfold resolve. rewrite H1, H1', H2.
  destruct (second_stage _ _) as [[c|c]|e]; simpl; try reflexivity.
  unfold third_stage. rewrite H3. reflexivity.
Qed.

(** X12. What [setup_environment] materialises is an override for the next
    resolution. If it returns a mapping that binds [ANTHROPIC_API_KEY] to a
    string, the mapping binds nothing else, and once that binding is put
    in the environment [get_anthropic_api_key] returns the same string
    without running any command, whatever the keychain then holds. *)
Theorem X12_materialised_key_is_an_override
    (environ : gmap string string)
    (security : list string -> outcome CompletedProcess)
    (json_loads : string -> outcome pyval)
    (account : option string) (t t' : trace) (m : gmap string pyval) (k : string) :
  TokenManager.setup_environment environ security json_loads account t = (Returns m, t') ->
  m !! override_key = Some (PyStr k) ->
  m = {[ override_key := PyStr k ]} /\
  forall security' json_loads' t'',
    TokenManager.get_anthropic_api_key
      (<[override_key := k]> environ) security' json_loads' t'' =
    (Returns (PyStr k), t'').
Proof.
  unfold TokenManager.setup_environment. rewrite run_bind. fold override_key.
  destruct (TokenManager.get_anthropic_api_key environ security json_loads t)
    as [[v|e] t0] eqn:Hrun; [|discriminate].
  destruct (py_truthy v) eqn:Hv.
  - simpl. intros [= <- _]. rewrite lookup_insert_eq. intros [= ->].
    split; [reflexivity|].
    intros security' json_loads' t''.
    unfold TokenManager.get_anthropic_api_key. fold override_key.
    rewrite lookup_insert_eq. simpl in *. rewrite Hv. reflexivity.
  - simpl. intros [= <- _]. rewrite lookup_empty. discriminate.
Qed.

(** X14. The third store never supplies the API key. Two keychains that
    agree on the first and the second store for no account make
    [get_anthropic_api_key] return the same value (or raise the same
    exception), whatever their third stores hold: a secret there can only
    become a session token. *)
Theorem X14_third_store_never_the_key
    (environ : gmap string string)
    (s1 s2 : list string -> outcome CompletedProcess)
    (json_loads : string -> outcome pyval) (t : trace) :
  stored s1 first_store None = stored s2 first_store None ->
  stored s1 second_store None = stored s2 second_store None ->
  fst (TokenManager.get_anthropic_api_key environ s1 json_loads t) =
  fst (TokenManager.get_anthropic_api_key environ s2 json_loads t).
Proof.
  intros H1 H2.
  destruct (opt_truthy (environ !! override_key)) eqn:Ho.
  - unfold TokenManager.get_anthropic_api_key. fold override_key. rewrite Ho.
    reflexivity.
  - rewrite !(get_anthropic_api_key_delegates _ _ _ _ Ho), !get_claude_credentials_run.
    unfold resolve. rewrite H1, H2.
    destruct (is_api_key _); [reflexivity|].
    destruct (second_stage _ _) as [[c|c]|e]; simpl; try reflexivity.
    rewrite !third_stage_api_key. reflexivity.
Qed.

(** ** The further properties on the scenarios *)

Lemma X7_witness :
  [query first_store None; query second_store None] =
    [] ++ [query first_store None; query second_store None] /\
  AttributeError <> JSONDecodeError.
Proof.
  assert (Hrun :
    TokenManager.get_claude_credentials (keychain [(second_store, "[]")]) json.loads None [] =
    (Raises AttributeError, [query first_store None; query second_store None]))
    by (vm_compute; reflexivity).
  destruct (X7_what_escapes _ _ _ _ _ _ Hrun) as (Ht & He & _).
  split; [exact Ht | exact He].
Defined.

Lemma X8_witness :
  fst (TokenManager.get_claude_credentials
         (keychain [(second_store, "  "); (third_store, EmptyString)]) json.loads None []) =
  fst (TokenManager.get_claude_credentials (keychain []) json.loads None []).
Proof.
  apply (X8_empty_secret_is_no_secret
           (keychain [(second_store, "  "); (third_store, EmptyString)]) (keychain [])
           json.loads None []); vm_compute; reflexivity.
Defined.

Lemma X9_witness :
  (session_token
     {| api_key := PyNone; mcp_oauth_tokens := PyNone; session_token := PyStr "c2FmZQ==" |}
   = PyNone \/
   exists s,
     stored (keychain [(second_store, "{not json"); (third_store, "c2FmZQ==")])
       third_store None = Some s /\
     s <> EmptyString /\
     session_token
       {| api_key := PyNone; mcp_oauth_tokens := PyNone;
          session_token := PyStr "c2FmZQ==" |} = PyStr s).
Proof.
  assert (Hrun :
    TokenManager.get_claude_credentials
      (keychain [(second_store, "{not json"); (third_store, "c2FmZQ==")])
      json.loads None [] =
    (Returns {| api_key := PyNone; mcp_oauth_tokens := PyNone;
                session_token := PyStr "c2FmZQ==" |},
     [query first_store None; query second_store None; query third_store None]))
    by (vm_compute; reflexivity).
  exact (proj1 (X9_field_provenance _ _ _ _ _ _ Hrun)).
Defined.

Lemma X10_witness :
  TokenManager.get_claude_credentials
    (keychain [(second_store, dq "{'mcpOAuth': {'svc1': {}}}")]) json.loads None [] =
  (Returns {| api_key := PyNone;
              mcp_oauth_tokens := PyDict {[ "svc1" := PyDict ∅ ]};
              session_token := PyNone |},
   store_queries None).
Proof.
  rewrite (X10_tokens_kept_without_credential
             (keychain [(second_store, dq "{'mcpOAuth': {'svc1': {}}}")]) json.loads
             None [] (dq "{'mcpOAuth': {'svc1': {}}}")
             {[ "mcpOAuth" := PyDict {[ "svc1" := PyDict ∅ ]} ]}).
  - vm_compute. reflexivity.
  - vm_compute. reflexivity.
  - vm_compute. reflexivity.
  - discriminate.
  - vm_compute. reflexivity.
  - vm_compute. reflexivity.
  - vm_compute. reflexivity.
  - intros tokens Ht. exists 1%nat.
    assert (Hl : ({[ "mcpOAuth" := PyDict {[ "svc1" := PyDict ∅ ]} ]}
                    : gmap string pyval) !! "mcpOAuth"
                 = Some (PyDict {[ "svc1" := PyDict ∅ ]}))
      by (vm_compute; reflexivity).
    rewrite Hl in Ht. injection Ht as <-. vm_compute. reflexivity.
Defined.

Lemma X11_witness :
  PyStr "sk-ant-abc" <> PyStr EmptyString /\
  (PyStr "sk-ant-abc" = PyNone \/ py_truthy (PyStr "sk-ant-abc") = true).
Proof.
  assert (Hrun :
    TokenManager.get_anthropic_api_key ∅ (keychain [(first_store, "sk-ant-abc")])
      json.loads [] = (Returns (PyStr "sk-ant-abc"), [query first_store None]))
    by (vm_compute; reflexivity).
  exact (X11_key_is_none_or_true _ _ _ _ _ _ Hrun).
Defined.

Lemma X12_witness :
  TokenManager.get_anthropic_api_key
    (<[override_key := "sk-ant-abc"]> ∅) no_keychain json.loads [] =
  (Returns (PyStr "sk-ant-abc"), []).
Proof.
  assert (Hrun :
    TokenManager.setup_environment ∅ (keychain [(first_store, "sk-ant-abc")])
      json.loads None [] =
    (Returns {[ override_key := PyStr "sk-ant-abc" ]}, [query first_store None]))
    by (vm_compute; reflexivity).
  apply (proj2 (X12_materialised_key_is_an_override _ _ _ _ _ _ _ "sk-ant-abc" Hrun
                  ltac:(vm_compute; reflexivity))).
Defined.

Lemma X13_witness :
  fst (TokenManager.get_claude_credentials
         (keychain [(first_store, "hunter2"); (third_store, "c2FmZQ==")])
         json.loads None []) =
  fst (TokenManager.get_claude_credentials
         (keychain [(third_store, "c2FmZQ==")]) json.loads None []).
Proof.
  apply (X13_unusable_first_store_is_ignored
           (keychain [(first_store, "hunter2"); (third_store, "c2FmZQ==")])
           (keychain [(third_store, "c2FmZQ==")]) json.loads None []);
    vm_compute; reflexivity.
Defined.

Lemma X14_witness :
  fst (TokenManager.get_anthropic_api_key ∅
         (keychain [(third_store, "sk-ant-in-safe-storage")]) json.loads []) =
  fst (TokenManager.get_anthropic_api_key ∅ (keychain []) json.loads []).
Proof.
  apply (X14_third_store_never_the_key ∅
           (keychain [(third_store, "sk-ant-in-safe-storage")]) (keychain [])
           json.loads []); vm_compute; reflexivity.
Defined.
